(** * The machine scope of the IONOS Cloud cluster-API provider

    A shallow embedding of [scope/machine.go]: the per-machine
    reconciliation scope, its read operations, the selection of the latest
    sibling machine and the patch/finalize protocol.

    The scope talks to collaborators that live outside the package (the
    controller-runtime client, the cluster scope, the cluster-api condition
    and patch helpers, the client-go retry loop).  Calls to them are
    modelled as events of a free monad [prog]; the environment answers each
    event, and a program together with the answers it received determines
    its result. *)

From Stdlib Require Import ZArith.
From stdpp Require Import base tactics option list strings gmap.

(** ** Go values shared by all packages *)

(** Go's [error] interface.  The package builds errors with [errors.New]
    and wraps one with [fmt.Errorf("...: %w", err)]; errors handed back by a
    collaborator are values of the same type. *)
Inductive error : Type :=
| errors_New (msg : string)
| fmt_Errorf_w (prefix : string) (err : error).

Global Instance error_eq_dec : EqDecision error.
Proof. solve_decision. Defined.

(** [time.Duration], in nanoseconds. *)
Definition Duration := Z.

Module time.
Definition Millisecond : Duration := 1000000%Z.
Definition Second : Duration := 1000000000%Z.
End time.

(** [metav1.Time]: an instant; [Before] is the strict order on instants
    (both receivers are addresses of struct fields, never [nil]). *)
Module metav1.
Definition Time := Z.
Definition Before (t u : Time) : bool := bool_decide (t < u)%Z.
End metav1.

(** ** [internal/util/ptr] *)

Module ptr.
(** Modelled from the spec: [internal/util/ptr] is not among the sources.
    [Deref] reads an optional value with a default ("the reference is
    empty" covers the absent pointer), [To] makes a value optional. *)
Definition Deref {A} (p : option A) (def : A) : A := default def p.
(** Modelled from the spec: [ptr.To], the address of a copy of the value. *)
Definition To {A} (v : A) : option A := Some v.
End ptr.

(** ** [sigs.k8s.io/cluster-api/api/v1beta1] *)

Module clusterv1.
Definition ConditionType := string.

Inductive ConditionStatus := ConditionTrue | ConditionFalse | ConditionUnknown.

Record Condition := {
  Type_ : ConditionType;
  Status_ : ConditionStatus;
  Reason : string;
  Message : string
}.

(** The type of the summary condition. *)
Definition ReadyCondition : ConditionType := "Ready".

Record Bootstrap := { DataSecretName : option string }.
Record MachineSpec := { Bootstrap_ : Bootstrap }.
Record Machine := { Name : string; Spec : MachineSpec }.

Global Instance ConditionStatus_eq_dec : EqDecision ConditionStatus.
Proof. solve_decision. Defined.
Global Instance Condition_eq_dec : EqDecision Condition.
Proof. solve_decision. Defined.
End clusterv1.

(** ** [api/v1alpha1]: the provider machine *)

Module infrav1.
(** Modelled from the spec: the declaration of the constant is not among
    the sources; the spec names the condition "MachineProvisioned". *)
Definition MachineProvisionedCondition : clusterv1.ConditionType :=
  "MachineProvisioned".

Record IonosCloudMachineSpec := {
  DatacenterID : string;
  ProviderID : option string
}.

Record IonosCloudMachineStatus := {
  FailureReason : option string;
  FailureMessage : option string;
  Conditions : list clusterv1.Condition
}.

Record IonosCloudMachine := {
  Name : string;
  Namespace : string;
  CreationTimestamp : metav1.Time;
  Spec : IonosCloudMachineSpec;
  Status : IonosCloudMachineStatus
}.

Global Instance Spec_eq_dec : EqDecision IonosCloudMachineSpec.
Proof. solve_decision. Defined.
Global Instance Status_eq_dec : EqDecision IonosCloudMachineStatus.
Proof. solve_decision. Defined.
Global Instance IonosCloudMachine_eq_dec : EqDecision IonosCloudMachine.
Proof. solve_decision. Defined.

Definition setSpec (o : IonosCloudMachine) (s : IonosCloudMachineSpec) :=
  {| Name := Name o; Namespace := Namespace o;
     CreationTimestamp := CreationTimestamp o; Spec := s; Status := Status o |}.

Definition setStatus (o : IonosCloudMachine) (s : IonosCloudMachineStatus) :=
  {| Name := Name o; Namespace := Namespace o;
     CreationTimestamp := CreationTimestamp o; Spec := Spec o; Status := s |}.
End infrav1.

(** ** [k8s.io/api/core/v1] and the controller-runtime client *)

Module corev1.
Record Secret := {
  Name : string;
  Namespace : string;
  Data : list (string * string)
}.
End corev1.

Module client.
(** [client.Client] is an interface value; the model knows a client by
    an opaque handle. *)
Record Client := { handle : nat }.

Record ObjectKey := { Namespace : string; Name : string }.

Definition MatchingLabels := gmap string string.

Global Instance ObjectKey_eq_dec : EqDecision ObjectKey.
Proof. solve_decision. Defined.
End client.

(** ** [sigs.k8s.io/cluster-api/util/patch] *)

Module patch.
(** Modelled from the spec: the patch helper is not among the sources.
    It "captures a snapshot of a mutable object at scope-creation time";
    the snapshot is "never mutated". *)
Record Helper := { before : infrav1.IonosCloudMachine }.
End patch.

(** ** The cluster scope *)

(** Modelled from the spec: [scope.Cluster] is not among the sources; the
    machine scope only holds a reference to it and calls its
    [ListMachines]. *)
Record Cluster := { clusterHandle : nat }.

(** ** [k8s.io/apimachinery/pkg/util/wait] *)

Module wait.
(** Modelled from the spec: the retry policy "(max attempts, base delay,
    multiplier ...)".  The random jitter of the library is left out. *)
Record Backoff := {
  Duration_ : Duration;
  Factor : Z;
  Steps : nat
}.
End wait.

(** ** Programs over the collaborators' events *)

Inductive scopeE : Type -> Type :=
| patch_NewHelper (obj : infrav1.IonosCloudMachine) (c : client.Client)
    : scopeE (patch.Helper + error)
| client_Get (c : client.Client) (key : client.ObjectKey)
    : scopeE (corev1.Secret + error)
| Cluster_ListMachines (cs : Cluster) (labels : client.MatchingLabels)
    : scopeE (list infrav1.IonosCloudMachine * option error)
| conditions_SetSummary (obj : infrav1.IonosCloudMachine)
    (withConditions : list clusterv1.ConditionType)
    : scopeE infrav1.IonosCloudMachine
| Helper_Patch (h : patch.Helper) (timeout : Duration)
    (obj : infrav1.IonosCloudMachine)
    (ownedConditions : list clusterv1.ConditionType)
    : scopeE (option error)
| log_Info (name : string) (v : Z) (msg : string) (kv : list (string * string))
    : scopeE unit
| time_Sleep (d : Duration) : scopeE unit.

Inductive prog (R : Type) : Type :=
| Ret (r : R)
| Vis {X : Type} (e : scopeE X) (k : X -> prog R).

Arguments Ret {R} r.
Arguments Vis {R X} e k.

Fixpoint bind {A B} (p : prog A) (f : A -> prog B) : prog B :=
  match p with
  | Ret a => f a
  | Vis e k => Vis e (fun x => bind (k x) f)
  end.

Definition call {X} (e : scopeE X) : prog X := Vis e Ret.

Global Instance prog_ret : MRet prog := @Ret.
Global Instance prog_bind : MBind prog := fun A B f p => bind p f.

(** One answered call of a run: the call and what the collaborator
    answered. *)
Inductive answered : Type :=
| did_NewHelper (obj : infrav1.IonosCloudMachine) (c : client.Client)
    (r : patch.Helper + error)
| did_Get (c : client.Client) (key : client.ObjectKey) (r : corev1.Secret + error)
| did_ListMachines (cs : Cluster) (labels : client.MatchingLabels)
    (r : list infrav1.IonosCloudMachine * option error)
| did_SetSummary (obj : infrav1.IonosCloudMachine)
    (withConditions : list clusterv1.ConditionType) (r : infrav1.IonosCloudMachine)
| did_Patch (h : patch.Helper) (timeout : Duration)
    (obj : infrav1.IonosCloudMachine)
    (ownedConditions : list clusterv1.ConditionType) (r : option error)
| did_Info (name : string) (v : Z) (msg : string) (kv : list (string * string))
| did_Sleep (d : Duration).

Definition Answer {X} (e : scopeE X) : X → answered :=
  match e with
  | patch_NewHelper obj c => did_NewHelper obj c
  | client_Get c key => did_Get c key
  | Cluster_ListMachines cs labels => did_ListMachines cs labels
  | conditions_SetSummary obj conds => did_SetSummary obj conds
  | Helper_Patch h timeout obj owned => did_Patch h timeout obj owned
  | log_Info name v msg kv => fun _ => did_Info name v msg kv
  | time_Sleep d => fun _ => did_Sleep d
  end.

Definition trace := list answered.

(** [runs p t r]: program [p], receiving the answers recorded in [t] to the
    calls recorded in [t], in this order, makes exactly these calls and
    returns [r]. *)
Fixpoint runs {R} (p : prog R) (t : trace) (r : R) : Prop :=
  match p with
  | Ret r' => t = [] ∧ r = r'
  | Vis e k => ∃ x t', t = Answer e x :: t' ∧ runs (k x) t' r
  end.

(** ** [k8s.io/client-go/util/retry] *)

Module retry.
Section OnError.
Context {S : Type}.

(** Modelled from the spec: [retry.OnError] is not among the sources.
    "A retry loop using exponential backoff ... up to the policy's
    configured step/cap/steps"; "exhausting retries surfaces the last
    error to the caller".  [fn] is tried at most [steps] times; between
    two tries the loop sleeps, and each sleep is [factor] times the one
    before.  An error that is not [retriable] ends the loop at once. *)
Fixpoint loop (steps : nat) (delay : Duration) (factor : Z)
    (retriable : error → bool) (fn : S → prog (option error * S))
    (lastErr : option error) (s : S) : prog (option error * S) :=
  match steps with
  | O => mret (lastErr, s)
  | Datatypes.S n =>
      '(err, s') ← fn s;
      match err with
      | None => mret (None, s')
      | Some e =>
          if retriable e then
            match n with
            | O => mret (Some e, s')
            | _ =>
                _ ← call (time_Sleep delay);
                loop n (delay * factor)%Z factor retriable fn (Some e) s'
            end
          else mret (Some e, s')
      end
  end.

(** Modelled from the spec: [retry.OnError] runs the loop with the steps,
    the base delay and the factor of the policy. *)
Definition OnError (backoff : wait.Backoff) (retriable : error → bool)
    (fn : S → prog (option error * S)) (s : S) : prog (option error * S) :=
  loop (wait.Steps backoff) (wait.Duration_ backoff) (wait.Factor backoff)
       retriable fn None s.
End OnError.
End retry.

(** ** [scope]: the machine scope *)

(** [MachineParams]: the params used to create a new [Machine] through
    [NewMachine].  Every field is an interface value or a pointer and may
    be [nil]. *)
Module MachineParams.
Record t := {
  Client : option client.Client;
  Machine : option clusterv1.Machine;
  ClusterScope : option Cluster;
  IonosMachine : option infrav1.IonosCloudMachine
}.
End MachineParams.

(** [Machine]: a basic machine context.  [NewMachine] only builds scopes
    whose fields are present, and the methods below are those of such a
    scope.  [IonosMachine] points to the record the reconciler mutates; the
    model passes the scope along and hands back the updated scope where a
    method writes to the record. *)
Module Machine.
Record t := {
  client : client.Client;
  patchHelper : patch.Helper;
  Machine : clusterv1.Machine;
  IonosMachine : infrav1.IonosCloudMachine;
  ClusterScope : Cluster
}.

Definition setIonosMachine (m : t) (o : infrav1.IonosCloudMachine) : t :=
  {| client := client m; patchHelper := patchHelper m; Machine := Machine m;
     IonosMachine := o; ClusterScope := ClusterScope m |}.
End Machine.

(** [NewMachine] creates a new [Machine] using the provided params. *)
Definition NewMachine (params : MachineParams.t)
    : prog (option Machine.t * option error) :=
  match MachineParams.Client params with
  | None => mret (None, Some (errors_New "machine scope params lack a client"))
  | Some c =>
  match MachineParams.Machine params with
  | None =>
      mret (None, Some (errors_New "machine scope params lack a Cluster API machine"))
  | Some machine =>
  match MachineParams.IonosMachine params with
  | None =>
      mret (None, Some (errors_New "machine scope params lack a IONOS Cloud machine"))
  | Some ionosMachine =>
  match MachineParams.ClusterScope params with
  | None =>
      mret (None, Some (errors_New "machine scope params need a IONOS Cloud cluster scope"))
  | Some clusterScope =>
      r ← call (patch_NewHelper ionosMachine c);
      match r with
      | inr err => mret (None, Some (fmt_Errorf_w "failed to init patch helper" err))
      | inl helper =>
          mret (Some {| Machine.client := c;
                        Machine.patchHelper := helper;
                        Machine.Machine := machine;
                        Machine.ClusterScope := clusterScope;
                        Machine.IonosMachine := ionosMachine |}, None)
      end
  end end end end.

(** [key.String()]. *)
Definition ObjectKey_String (key : client.ObjectKey) : string :=
  client.Namespace key +:+ "/" +:+ client.Name key.

(** [GetBootstrapDataSecret] returns the bootstrap data secret, which has
    been created by the Kubeadm provider. *)
Definition GetBootstrapDataSecret (m : Machine.t)
    : prog (option corev1.Secret * option error) :=
  let name :=
    ptr.Deref (clusterv1.DataSecretName
                 (clusterv1.Bootstrap_ (clusterv1.Spec (Machine.Machine m)))) "" in
  if decide (name = "") then
    mret (None, Some (errors_New "machine has no bootstrap data yet"))
  else
    let key := {| client.Name := name;
                  client.Namespace := infrav1.Namespace (Machine.IonosMachine m) |} in
    _ ← call (log_Info "GetBoostrapDataSecret" 4 "searching for bootstrap data"
                [("secret", ObjectKey_String key)]);
    r ← call (client_Get (Machine.client m) key);
    match r with
    | inr err => mret (None, Some err)
    | inl lookupSecret => mret (Some lookupSecret, None)
    end.

(** [DatacenterID] returns the data center ID used by the IonosCloudMachine. *)
Definition DatacenterID (m : Machine.t) : string :=
  infrav1.DatacenterID (infrav1.Spec (Machine.IonosMachine m)).

(** [SetProviderID] sets the provider ID for the IonosCloudMachine. *)
Definition SetProviderID (m : Machine.t) (id : string) : Machine.t :=
  let o := Machine.IonosMachine m in
  Machine.setIonosMachine m
    (infrav1.setSpec o
       {| infrav1.DatacenterID := infrav1.DatacenterID (infrav1.Spec o);
          infrav1.ProviderID := ptr.To ("ionos://" +:+ id) |}).

(** [ListMachines] is a convenience wrapper for the cluster scope's
    [ListMachines]. *)
Definition ListMachines (m : Machine.t) (machineLabels : client.MatchingLabels)
    : prog (list infrav1.IonosCloudMachine * option error) :=
  call (Cluster_ListMachines (Machine.ClusterScope m) machineLabels).

(** [CountMachines] returns the number of existing IonosCloudMachines in
    the same namespace and with the same cluster label. *)
Definition CountMachines (m : Machine.t) (machineLabels : client.MatchingLabels)
    : prog (nat * option error) :=
  '(machines, err) ← ListMachines m machineLabels;
  mret (length machines, err).

(** The body of the loop of [FindLatestMachine]: the candidate after
    looking at [machine]. *)
Definition keepLatest (ownName : string)
    (latestMachine machine : infrav1.IonosCloudMachine) : infrav1.IonosCloudMachine :=
  if negb (metav1.Before (infrav1.CreationTimestamp machine)
                         (infrav1.CreationTimestamp latestMachine))
     && bool_decide (infrav1.Name machine ≠ ownName)
  then machine else latestMachine.

(** The candidate when the loop over [machines] ends, started at
    [machines[0]]. *)
Definition scanLatest (ownName : string)
    (first : infrav1.IonosCloudMachine) (machines : list infrav1.IonosCloudMachine)
    : infrav1.IonosCloudMachine :=
  fold_left (keepLatest ownName) machines first.

(** [FindLatestMachine] returns the latest IonosCloudMachine in the same
    namespace and with the same cluster label.  If no machine was found,
    nil is returned.  Only machines that are different to the receiver
    machine are considered. *)
Definition FindLatestMachine (m : Machine.t) (matchLabels : client.MatchingLabels)
    : prog (option infrav1.IonosCloudMachine * option error) :=
  '(machines, err) ← call (Cluster_ListMachines (Machine.ClusterScope m) matchLabels);
  match err with
  | Some e => mret (None, Some e)
  | None =>
      match machines with
      | [] | [_] => mret (None, None)
      | first :: _ =>
          let latestMachine :=
            scanLatest (infrav1.Name (Machine.IonosMachine m)) first machines in
          if decide (infrav1.Name latestMachine = infrav1.Name (Machine.IonosMachine m))
          then mret (None, None)
          else mret (Some latestMachine, None)
      end
  end.

(** [HasFailed] checks if the IonosCloudMachine is in a failed state. *)
Definition HasFailed (m : Machine.t) : bool :=
  let status := infrav1.Status (Machine.IonosMachine m) in
  bool_decide (infrav1.FailureReason status ≠ None)
  || bool_decide (infrav1.FailureMessage status ≠ None).

(** [PatchObject] will apply all changes from the IonosMachine.  The
    summary is written to the record in place; the patch runs under a
    deadline of its own, ten seconds, not under the caller's context. *)
Definition PatchObject (m : Machine.t) : prog (option error * Machine.t) :=
  o ← call (conditions_SetSummary (Machine.IonosMachine m)
              [infrav1.MachineProvisionedCondition]);
  let m := Machine.setIonosMachine m o in
  err ← call (Helper_Patch (Machine.patchHelper m) (time.Second * 10)%Z
                (Machine.IonosMachine m)
                [clusterv1.ReadyCondition; infrav1.MachineProvisionedCondition]);
  mret (err, m).

Section Finalize.
(** [retry.DefaultBackoff]: the policy of the library, whose step count,
    base delay and factor the sources do not state. *)
Variable DefaultBackoff : wait.Backoff.

(** [Finalize] will make sure to apply a patch to the current
    IonosCloudMachine, retrying the patch on every error. *)
Definition Finalize (m : Machine.t) : prog (option error * Machine.t) :=
  let shouldRetry := fun _ : error => true in
  retry.OnError DefaultBackoff shouldRetry PatchObject m.
End Finalize.

(** ** What a run did: projections of a trace *)

(** The point lookups of a run: client, key and the store's answer. *)
Definition lookup_of (a : answered)
    : option (client.Client * client.ObjectKey * (corev1.Secret + error)) :=
  match a with did_Get c key r => Some (c, key, r) | _ => None end.
Definition lookups (t : trace) := omap lookup_of t.

(** The outcomes of the commit attempts of a run, in order. *)
Definition commit_of (a : answered) : option (option error) :=
  match a with did_Patch _ _ _ _ r => Some r | _ => None end.
Definition commits (t : trace) := omap commit_of t.

(** The pauses of a run. *)
Definition sleep_of (a : answered) : option Duration :=
  match a with did_Sleep d => Some d | _ => None end.
Definition sleeps (t : trace) := omap sleep_of t.

(** The condition subsets the summary was computed from. *)
Definition summary_of (a : answered) : option (list clusterv1.ConditionType) :=
  match a with did_SetSummary _ conds _ => Some conds | _ => None end.
Definition summaries (t : trace) := omap summary_of t.

(** The geometric schedule of pauses: [n] delays starting at [d]. *)
Fixpoint schedule (n : nat) (d : Duration) (factor : Z) : list Duration :=
  match n with
  | O => []
  | S n' => d :: schedule n' (d * factor)%Z factor
  end.

(** The error kinds of the spec, as the sources produce them. *)
Definition InvalidParams (e : error) : Prop :=
  e = errors_New "machine scope params lack a client"
  ∨ e = errors_New "machine scope params lack a Cluster API machine"
  ∨ e = errors_New "machine scope params lack a IONOS Cloud machine"
  ∨ e = errors_New "machine scope params need a IONOS Cloud cluster scope".

Definition NoBootstrapData : error :=
  errors_New "machine has no bootstrap data yet".

(** The answer of the cluster scope to a sibling query. *)
Definition listed (m : Machine.t) (labels : client.MatchingLabels)
    (machines : list infrav1.IonosCloudMachine) (err : option error) : answered :=
  did_ListMachines (Machine.ClusterScope m) labels (machines, err).

(** ** Running a program against an environment *)

(** An environment answers every call and moves from one state of the
    world to the next. *)
Definition handler (W : Type) := ∀ X, scopeE X → W → X * W.

(** [exec h p w]: the result of [p] in the world [w], the world it leaves
    and the trace of the run. *)
Fixpoint exec {W R} (h : handler W) (p : prog R) (w : W) : R * W * trace :=
  match p with
  | Ret r => (r, w, [])
  | Vis e k =>
      let '(x, w') := h _ e w in
      let '(r, w'', t) := exec h (k x) w' in
      (r, w'', Answer e x :: t)
  end.

(** ** The store as one scope sees it *)

Module store.
(** Modelled from the spec: the resource store and the patch helper are
    not among the sources.  Commit "compute[s] the diff between
    PatchSnapshot and the current ProviderMachineRecord (spec + status, as
    two logically separate sub-patches ...)" and "appl[ies] the diff(es)
    to the store"; it "returns the store's outcome", a conflict among
    them. *)
Record Diff := {
  specPatch : option infrav1.IonosCloudMachineSpec;
  statusPatch : option infrav1.IonosCloudMachineStatus
}.

(** Modelled from the spec: "the diff between PatchSnapshot and the current
    ProviderMachineRecord", one sub-patch for the spec and one for the
    status, each present when that part of the record changed. *)
Definition diff (before after : infrav1.IonosCloudMachine) : Diff :=
  {| specPatch :=
       if decide (infrav1.Spec before = infrav1.Spec after) then None
       else Some (infrav1.Spec after);
     statusPatch :=
       if decide (infrav1.Status before = infrav1.Status after) then None
       else Some (infrav1.Status after) |}.

(** Modelled from the spec: "apply the diff(es) to the store"; a
    sub-patch overwrites its part of the stored record. *)
Definition apply (d : Diff) (o : infrav1.IonosCloudMachine)
    : infrav1.IonosCloudMachine :=
  infrav1.setStatus
    (infrav1.setSpec o (default (infrav1.Spec o) (specPatch d)))
    (default (infrav1.Status o) (statusPatch d)).

(** A diff that carries no sub-patch. *)
Definition empty (d : Diff) : Prop := specPatch d = None ∧ statusPatch d = None.

(** Modelled from the spec: the store as one scope sees it.  The world
    is the stored copy of the machine, and the outcomes the
    store will give to the coming patch requests ([Some e]: the request
    is refused with [e], a conflict say, and nothing is written; once the
    list is used up every request is accepted). *)
Record World := {
  stored : infrav1.IonosCloudMachine;
  faults : list (option error)
}.

Section Env.
(** The summary of the condition helper, which the sources do not
    contain: it rewrites the record from the given condition subset. *)
Variable summarise :
  infrav1.IonosCloudMachine → list clusterv1.ConditionType →
  infrav1.IonosCloudMachine.

(** Modelled from the spec: the collaborators' answers.  The helper is
    the snapshot of the record it is created for; a patch request applies
    the diff between the snapshot and the record handed in, or is refused
    and writes nothing; the calls that do not touch the machine get a fixed
    answer. *)
Definition env : handler World :=
  fun X (e : scopeE X) (w : World) =>
    match e in scopeE X return X * World with
    | patch_NewHelper obj _ => (inl {| patch.before := obj |}, w)
    | client_Get _ _ => (inr (errors_New "not found"), w)
    | Cluster_ListMachines _ _ => (([stored w], None), w)
    | conditions_SetSummary obj conds => (summarise obj conds, w)
    | Helper_Patch h _ obj _ =>
        match faults w with
        | Some err :: rest => (Some err, {| stored := stored w; faults := rest |})
        | None :: rest =>
            (None, {| stored := apply (diff (patch.before h) obj) (stored w);
                      faults := rest |})
        | [] =>
            (None, {| stored := apply (diff (patch.before h) obj) (stored w);
                      faults := [] |})
        end
    | log_Info _ _ _ _ => (tt, w)
    | time_Sleep _ => (tt, w)
    end.
End Env.
End store.

(** ** The summary condition *)

Module conditions.
(** Modelled from the spec: the condition helper is not among the
    sources.  "A summary condition is derived from a fixed subset of
    others": the summary is [Ready]; it is true when every condition of
    the subset that the record carries is true, false when one of them is
    false, unknown otherwise; a record that carries none of them is left
    as it is. *)
Definition inScope (conds : list clusterv1.ConditionType) (c : clusterv1.Condition)
    : bool :=
  bool_decide (clusterv1.Type_ c ∈ conds)
  && bool_decide (clusterv1.Type_ c ≠ clusterv1.ReadyCondition).

Definition hasStatus (s : clusterv1.ConditionStatus) (c : clusterv1.Condition)
    : bool :=
  bool_decide (clusterv1.Status_ c = s).

(** Modelled from the spec: the summary condition of a condition set,
    none when the set holds no condition of the subset. *)
Definition summary (conds : list clusterv1.ConditionType)
    (cs : list clusterv1.Condition) : option clusterv1.Condition :=
  let scope := filter (λ c, inScope conds c = true) cs in
  match scope with
  | [] => None
  | _ =>
      Some {| clusterv1.Type_ := clusterv1.ReadyCondition;
              clusterv1.Status_ :=
                if existsb (hasStatus clusterv1.ConditionFalse) scope
                then clusterv1.ConditionFalse
                else if existsb (hasStatus clusterv1.ConditionUnknown) scope
                then clusterv1.ConditionUnknown
                else clusterv1.ConditionTrue;
              clusterv1.Reason := "";
              clusterv1.Message := "" |}
  end.

(** Modelled from the spec: writing a condition to a condition set
    replaces the condition of the same type, or adds the condition. *)
Fixpoint Set_ (c : clusterv1.Condition) (cs : list clusterv1.Condition)
    : list clusterv1.Condition :=
  match cs with
  | [] => [c]
  | c' :: rest =>
      if decide (clusterv1.Type_ c' = clusterv1.Type_ c) then c :: rest
      else c' :: Set_ c rest
  end.

(** Modelled from the spec: "recompute the Ready-summary condition from
    the fixed condition subset" and write it to the record. *)
Definition SetSummary (o : infrav1.IonosCloudMachine)
    (conds : list clusterv1.ConditionType) : infrav1.IonosCloudMachine :=
  let status := infrav1.Status o in
  match summary conds (infrav1.Conditions status) with
  | None => o
  | Some c =>
      infrav1.setStatus o
        {| infrav1.FailureReason := infrav1.FailureReason status;
           infrav1.FailureMessage := infrav1.FailureMessage status;
           infrav1.Conditions := Set_ c (infrav1.Conditions status) |}
  end.
End conditions.

(** ** Sample data *)

Definition sampleMachine (name : string) (created : metav1.Time)
    : infrav1.IonosCloudMachine :=
  {| infrav1.Name := name;
     infrav1.Namespace := "default";
     infrav1.CreationTimestamp := created;
     infrav1.Spec := {| infrav1.DatacenterID := "dc-1"; infrav1.ProviderID := None |};
     infrav1.Status := {| infrav1.FailureReason := None;
                          infrav1.FailureMessage := None;
                          infrav1.Conditions := [] |} |}.

Arguments sampleMachine name created%_Z.

Definition sampleCAPIMachine (name : string) (secret : option string)
    : clusterv1.Machine :=
  {| clusterv1.Name := name;
     clusterv1.Spec :=
       {| clusterv1.Bootstrap_ := {| clusterv1.DataSecretName := secret |} |} |}.

Definition sampleClient : client.Client := {| client.handle := 0 |}.
Definition sampleCluster : Cluster := {| clusterHandle := 0 |}.

(** The scope [NewMachine] builds for a machine, its snapshot taken from
    the machine as it is. *)
Definition sampleScope (secret : option string) (o : infrav1.IonosCloudMachine)
    : Machine.t :=
  {| Machine.client := sampleClient;
     Machine.patchHelper := {| patch.before := o |};
     Machine.Machine := sampleCAPIMachine (infrav1.Name o) secret;
     Machine.IonosMachine := o;
     Machine.ClusterScope := sampleCluster |}.

(** A machine that carries the condition [MachineProvisioned]. *)
Definition sampleProvisioned (name : string) (status : clusterv1.ConditionStatus)
    : infrav1.IonosCloudMachine :=
  infrav1.setStatus (sampleMachine name 0)
    {| infrav1.FailureReason := None;
       infrav1.FailureMessage := None;
       infrav1.Conditions :=
         [ {| clusterv1.Type_ := infrav1.MachineProvisionedCondition;
              clusterv1.Status_ := status;
              clusterv1.Reason := "";
              clusterv1.Message := "" |} ] |}.

(** The two calls of one commit of [m]: the summary answered by the model
    of the condition helper, and the patch answered with [outcome]. *)
Definition commitTrace (m : Machine.t) (outcome : option error) : trace :=
  let o := conditions.SetSummary (Machine.IonosMachine m)
             [infrav1.MachineProvisionedCondition] in
  [did_SetSummary (Machine.IonosMachine m) [infrav1.MachineProvisionedCondition] o;
   did_Patch (Machine.patchHelper m) (time.Second * 10)%Z o
             [clusterv1.ReadyCondition; infrav1.MachineProvisionedCondition]
             outcome].

(** The scope a commit of [m] leaves. *)
Definition committed (m : Machine.t) : Machine.t :=
  Machine.setIonosMachine m
    (conditions.SetSummary (Machine.IonosMachine m)
       [infrav1.MachineProvisionedCondition]).

(** The policy of the library as the library ships it: four steps, ten
    milliseconds, factor five. *)
Definition sampleBackoff : wait.Backoff :=
  {| wait.Duration_ := (10 * time.Millisecond)%Z; wait.Factor := 5; wait.Steps := 4 |}.

(** A run of [Finalize]: two attempts refused with a conflict, the third
    accepted. *)
Definition sampleConflict : error :=
  errors_New "the object has been modified; please apply your changes to the latest version and try again".

Definition sampleFinalizeTrace (m : Machine.t) : trace :=
  commitTrace m (Some sampleConflict)
  ++ [did_Sleep (10 * time.Millisecond)%Z]
  ++ commitTrace (committed m) (Some sampleConflict)
  ++ [did_Sleep (50 * time.Millisecond)%Z]
  ++ commitTrace (committed (committed m)) None.

(** A scope whose record was mutated after construction: the snapshot is
    the machine as constructed, the record carries a failure. *)
Definition sampleFailed (name : string) : infrav1.IonosCloudMachine :=
  infrav1.setStatus (sampleMachine name 0)
    {| infrav1.FailureReason := Some "CreateError";
       infrav1.FailureMessage := Some "server could not be created";
       infrav1.Conditions := [] |}.

Definition sampleMutatedScope : Machine.t :=
  Machine.setIonosMachine (sampleScope None (sampleMachine "m1" 0)) (sampleFailed "m1").

(** The store holds the machine as constructed; [faults] scripts the
    outcomes of the coming patch requests. *)
Definition sampleWorld (faults : list (option error)) : store.World :=
  {| store.stored := sampleMachine "m1" 0; store.faults := faults |}.

(** Two commits in succession, nothing in between: the second runs on the
    scope and in the world the first one left. *)
Definition twoCommits (m : Machine.t) (w : store.World)
    : (option error * Machine.t * store.World * trace)
      * (option error * Machine.t * store.World * trace) :=
  let first := exec (store.env conditions.SetSummary) (PatchObject m) w in
  let second :=
    exec (store.env conditions.SetSummary) (PatchObject first.1.1.2) first.1.2 in
  (first, second).

(** ** The shape of the runs of [Finalize] *)

(** One commit attempt on the scope [m]: the summary of the record of [m],
    answered with [o], and the patch of [o] with the helper of [m]. *)
Definition attempt (m : Machine.t) (o : infrav1.IonosCloudMachine)
    (err : option error) : trace :=
  [did_SetSummary (Machine.IonosMachine m) [infrav1.MachineProvisionedCondition] o;
   did_Patch (Machine.patchHelper m) (time.Second * 10)%Z o
             [clusterv1.ReadyCondition; infrav1.MachineProvisionedCondition] err].

(** [chain m t m']: [t] is a sequence of commit attempts that starts on the
    scope [m]; every attempt but the last failed and is followed by one
    pause, every attempt works on the record the attempt before left, and
    [m'] is the scope the last attempt leaves. *)
Inductive chain : Machine.t → trace → Machine.t → Prop :=
| chain_last m o err :
    chain m (attempt m o err) (Machine.setIonosMachine m o)
| chain_retry m o e d rest m' :
    chain (Machine.setIonosMachine m o) rest m' →
    chain m (attempt m o (Some e) ++ did_Sleep d :: rest) m'.

(** The calls a commit is made of. *)
Definition commitCall (a : answered) : Prop :=
  match a with
  | did_SetSummary _ _ _ | did_Patch _ _ _ _ _ | did_Sleep _ => True
  | _ => False
  end.

(** * Properties *)

(** ** Runs *)

Lemma Answer_inj {X} (e : scopeE X) (x y : X) : Answer e x = Answer e y → x = y.
Proof. destruct e; simpl; try congruence; by destruct x, y. Qed.

Lemma runs_det {R} (p : prog R) t r1 r2 : runs p t r1 → runs p t r2 → r1 = r2.
Proof.
  revert t. induction p as [r|X e k IH]; intros t; simpl.
  - intros [_ ->] [_ ->]. done.
  - intros (x & t1 & -> & H1) (y & t2 & Heq & H2).
    injection Heq as Hx <-. apply Answer_inj in Hx as <-. eauto.
Qed.

Lemma runs_bind {A B} (p : prog A) (f : A → prog B) t r :
  runs (p ≫= f) t r ↔ ∃ t1 t2 a, t = t1 ++ t2 ∧ runs p t1 a ∧ runs (f a) t2 r.
Proof.
  unfold mbind, prog_bind. revert t.
  induction p as [a|X e k IH]; intros t; simpl.
  - split.
    + intros H. exists [], t, a. done.
    + intros (t1 & t2 & a' & -> & [-> ->] & H). done.
  - split.
    + intros (x & t' & -> & H). apply IH in H as (t1 & t2 & a & -> & H1 & H2).
      exists (Answer e x :: t1), t2, a. split; [done|]. split; [|done].
      exists x, t1. done.
    + intros (t1 & t2 & a & -> & (x & t' & -> & H1) & H2).
      exists x, (t' ++ t2). split; [done|]. apply IH. eauto 6.
Qed.

(** ** The failure check *)

(** C7: [HasFailed] is true exactly when at least one of [FailureReason]
    and [FailureMessage] is set (a non-nil pointer, the only notion of
    "non-empty" the status has); it is false on a record with neither field
    set, whatever the rest of the record is.  [HasFailed] is a function
    into [bool], not a program: it makes no call to any collaborator. *)
Theorem HasFailed_iff_failure_set :
  ∀ m : Machine.t,
    (HasFailed m = true ↔
       infrav1.FailureReason (infrav1.Status (Machine.IonosMachine m)) ≠ None
       ∨ infrav1.FailureMessage (infrav1.Status (Machine.IonosMachine m)) ≠ None)
    ∧ (∀ conds,
         HasFailed
           (Machine.setIonosMachine m
              (infrav1.setStatus (Machine.IonosMachine m)
                 {| infrav1.FailureReason := None;
                    infrav1.FailureMessage := None;
                    infrav1.Conditions := conds |})) = false).
Proof.
  intros m. split; [|done].
  unfold HasFailed.
  rewrite orb_true_iff, !bool_decide_eq_true. done.
Qed.

(** ** The latest sibling *)

Section LatestSibling.
Variable ownName : string.
Implicit Types (c x z : infrav1.IonosCloudMachine)
               (l : list infrav1.IonosCloudMachine).

Lemma keepLatest_replace c x :
  (infrav1.CreationTimestamp c ≤ infrav1.CreationTimestamp x)%Z →
  infrav1.Name x ≠ ownName →
  keepLatest ownName c x = x.
Proof.
  intros Hle Hne. unfold keepLatest, metav1.Before.
  rewrite bool_decide_eq_false_2 by lia.
  by rewrite bool_decide_eq_true_2.
Qed.

Lemma keepLatest_keep_own c x :
  infrav1.Name x = ownName → keepLatest ownName c x = c.
Proof.
  intros Heq. unfold keepLatest.
  rewrite (bool_decide_eq_false_2 (_ ≠ _)) by (intros H; by apply H).
  by rewrite andb_false_r.
Qed.

Lemma keepLatest_keep_older c x :
  (infrav1.CreationTimestamp x < infrav1.CreationTimestamp c)%Z →
  keepLatest ownName c x = c.
Proof.
  intros Hlt. unfold keepLatest, metav1.Before.
  by rewrite bool_decide_eq_true_2.
Qed.

(** The candidate is always the start or a machine of the list. *)
Lemma scanLatest_elem (P : infrav1.IonosCloudMachine → Prop) l c :
  P c → (∀ z, z ∈ l → P z) → P (scanLatest ownName c l).
Proof.
  unfold scanLatest. revert c.
  induction l as [|x l IH]; intros c Hc Hl; simpl; [done|].
  apply IH.
  - unfold keepLatest. case_match; [apply Hl; left | done].
  - intros z Hz. apply Hl. by right.
Qed.

(** Once the candidate is a sibling at the maximal timestamp, only a
    sibling at that timestamp replaces it. *)
Lemma scanLatest_stays l x T :
  infrav1.CreationTimestamp x = T →
  (∀ z, z ∈ l →
        (infrav1.CreationTimestamp z ≤ T)%Z
        ∧ (infrav1.Name z ≠ ownName → infrav1.CreationTimestamp z ≠ T)) →
  scanLatest ownName x l = x.
Proof.
  unfold scanLatest. intros HT.
  induction l as [|z l IH]; intros Hl; simpl; [done|].
  destruct (Hl z) as [Hle Hne]; [left|].
  destruct (decide (infrav1.Name z = ownName)) as [Hown|Hown].
  - rewrite keepLatest_keep_own by done. apply IH.
    intros z' Hz'. apply Hl. by right.
  - rewrite keepLatest_keep_older by (specialize (Hne Hown); lia).
    apply IH. intros z' Hz'. apply Hl. by right.
Qed.

(** The scan ends at the last sibling holding the maximal timestamp. *)
Lemma scanLatest_last_max c pre x post T :
  (infrav1.CreationTimestamp c ≤ T)%Z →
  (∀ z, z ∈ pre → (infrav1.CreationTimestamp z ≤ T)%Z) →
  infrav1.Name x ≠ ownName →
  infrav1.CreationTimestamp x = T →
  (∀ z, z ∈ post →
        (infrav1.CreationTimestamp z ≤ T)%Z
        ∧ (infrav1.Name z ≠ ownName → infrav1.CreationTimestamp z ≠ T)) →
  scanLatest ownName c (pre ++ x :: post) = x.
Proof.
  intros Hc Hpre Hx HT Hpost.
  unfold scanLatest. rewrite fold_left_app. simpl.
  fold (scanLatest ownName c pre).
  rewrite keepLatest_replace; [|subst T|done].
  - by apply scanLatest_stays with (T := T).
  - by apply (scanLatest_elem (λ z, (infrav1.CreationTimestamp z ≤ _)%Z)).
Qed.
End LatestSibling.

(** What [FindLatestMachine] answers on a list of two or more machines. *)
Lemma FindLatestMachine_scan m labels first second rest :
  let own := infrav1.Name (Machine.IonosMachine m) in
  let latest := scanLatest own first (first :: second :: rest) in
  runs (FindLatestMachine m labels)
       [listed m labels (first :: second :: rest) None]
       (if decide (infrav1.Name latest = own) then (None, None)
        else (Some latest, None)).
Proof.
  intros own latest. unfold FindLatestMachine. simpl.
  eexists _, _. split; [reflexivity|]. simpl.
  fold own latest. by destruct (decide _).
Qed.

(** Every run of [FindLatestMachine] is one sibling query and its answer. *)
Lemma FindLatestMachine_runs_inv m labels t r :
  runs (FindLatestMachine m labels) t r →
  ∃ machines err, t = [listed m labels machines err].
Proof.
  unfold FindLatestMachine. simpl.
  intros ([machines err] & t' & -> & H). exists machines, err.
  simpl in H. destruct err as [e|].
  - destruct H as [-> _]. done.
  - destruct machines as [|first [|second rest]]; simpl in H;
      try (destruct H as [-> _]; done).
    destruct (decide _); destruct H as [-> _]; done.
Qed.

(** C2 (as amended): when the list holds the scope's own record and one
    other machine, and the other machine has the strictly later creation
    timestamp, [FindLatestMachine] returns the other machine, whichever of
    the two the list presents first. *)
Theorem FindLatestMachine_later_sibling :
  ∀ (m : Machine.t) labels (self other : infrav1.IonosCloudMachine),
    infrav1.Name self = infrav1.Name (Machine.IonosMachine m) →
    infrav1.Name other ≠ infrav1.Name (Machine.IonosMachine m) →
    (infrav1.CreationTimestamp self < infrav1.CreationTimestamp other)%Z →
    runs (FindLatestMachine m labels) [listed m labels [self; other] None]
         (Some other, None)
    ∧ runs (FindLatestMachine m labels) [listed m labels [other; self] None]
           (Some other, None).
Proof.
  intros m labels self other Hself Hother Hlt.
  set (own := infrav1.Name (Machine.IonosMachine m)) in *.
  assert (scanLatest own self [self; other] = other) as H1.
  { apply (scanLatest_last_max own self [self] other []
             (infrav1.CreationTimestamp other)); try done.
    - lia.
    - intros z ->%list_elem_of_singleton. lia.
    - intros z Hz. by apply not_elem_of_nil in Hz. }
  assert (scanLatest own other [other; self] = other) as H2.
  { apply (scanLatest_last_max own other [] other [self]
             (infrav1.CreationTimestamp other)); try done.
    - intros z Hz. by apply not_elem_of_nil in Hz.
    - intros z ->%list_elem_of_singleton. split; [lia|]. done. }
  split.
  - pose proof (FindLatestMachine_scan m labels self other []) as H.
    cbv zeta in H. fold own in H. rewrite H1 in H.
    by rewrite decide_False in H.
  - pose proof (FindLatestMachine_scan m labels other self []) as H.
    cbv zeta in H. fold own in H. rewrite H2 in H.
    by rewrite decide_False in H.
Qed.

(** C3: no run of [FindLatestMachine] returns a machine that carries the
    name of the scope's own record; and when the candidate left by the scan
    carries that name, the result is nil with no error. *)
Theorem FindLatestMachine_never_own :
  ∀ (m : Machine.t) labels t r,
    runs (FindLatestMachine m labels) t r →
    (∀ x, r.1 = Some x →
          infrav1.Name x ≠ infrav1.Name (Machine.IonosMachine m))
    ∧ (∀ first second rest,
         t = [listed m labels (first :: second :: rest) None] →
         infrav1.Name (scanLatest (infrav1.Name (Machine.IonosMachine m))
                                  first (first :: second :: rest))
           = infrav1.Name (Machine.IonosMachine m) →
         r = (None, None)).
Proof.
  intros m labels t r Hrun. split.
  - intros x Hx. revert Hrun. unfold FindLatestMachine. simpl.
    intros ([machines err] & t' & -> & H). simpl in H.
    destruct err as [e|].
    { destruct H as [_ ->]. done. }
    destruct machines as [|first [|second rest]]; simpl in H;
      try (destruct H as [_ ->]; done).
    destruct (decide _) as [Heq|Hne]; destruct H as [_ ->]; [done|].
    simpl in Hx. by injection Hx as <-.
  - intros first second rest -> Hown.
    pose proof (FindLatestMachine_scan m labels first second rest) as H.
    cbv zeta in H. rewrite decide_True in H by done.
    by eapply runs_det.
Qed.

(** C8: when the maximal creation timestamp of the list is held by more
    than one machine other than the scope's own, [FindLatestMachine]
    returns the last of them in the order of the list. *)
Theorem FindLatestMachine_tie_last_wins :
  ∀ (m : Machine.t) labels l1 (y : infrav1.IonosCloudMachine) l2
    (x : infrav1.IonosCloudMachine) l3 (T : metav1.Time),
    (∀ z, z ∈ l1 ++ y :: l2 ++ x :: l3 → (infrav1.CreationTimestamp z ≤ T)%Z) →
    infrav1.Name y ≠ infrav1.Name (Machine.IonosMachine m) →
    infrav1.CreationTimestamp y = T →
    infrav1.Name x ≠ infrav1.Name (Machine.IonosMachine m) →
    infrav1.CreationTimestamp x = T →
    (∀ z, z ∈ l3 → infrav1.Name z ≠ infrav1.Name (Machine.IonosMachine m) →
          infrav1.CreationTimestamp z ≠ T) →
    runs (FindLatestMachine m labels)
         [listed m labels (l1 ++ y :: l2 ++ x :: l3) None]
         (Some x, None).
Proof.
  intros m labels l1 y l2 x l3 T Hmax Hy HyT Hx HxT Hlast.
  set (own := infrav1.Name (Machine.IonosMachine m)) in *.
  set (machines := l1 ++ y :: l2 ++ x :: l3) in *.
  assert (∀ first, first ∈ machines → scanLatest own first machines = x) as Hscan.
  { intros first Hfirst. unfold machines.
    replace (l1 ++ y :: l2 ++ x :: l3) with ((l1 ++ y :: l2) ++ x :: l3)
      by (by rewrite <- app_assoc).
    apply scanLatest_last_max with (T := T); try done.
    - by apply Hmax.
    - intros z Hz. apply Hmax. unfold machines.
      replace (l1 ++ y :: l2 ++ x :: l3) with ((l1 ++ y :: l2) ++ x :: l3)
        by (by rewrite <- app_assoc).
      apply elem_of_app. by left.
    - intros z Hz. split; [|by apply Hlast].
      apply Hmax. unfold machines. rewrite !elem_of_app, !elem_of_cons, !elem_of_app,
        !elem_of_cons. tauto. }
  destruct machines as [|first [|second rest]] eqn:Hm.
  - destruct l1; discriminate.
  - destruct l1 as [|? [|? ?]]; simplify_eq/=; destruct l2; discriminate.
  - pose proof (FindLatestMachine_scan m labels first second rest) as H.
    cbv zeta in H. fold own in H. rewrite Hscan in H by left.
    by rewrite decide_False in H.
Qed.

(** C10: the result depends on the order of the list even when all
    creation timestamps differ.  There is a list in which the scope's own
    record is strictly the latest; with the own record first the result is
    nil, with the own record last the result is a strictly older sibling. *)
Theorem FindLatestMachine_order_dependent :
  ∃ (m : Machine.t) labels (l l' : list infrav1.IonosCloudMachine)
    (older : infrav1.IonosCloudMachine),
    l ≡ₚ l'
    ∧ NoDup (infrav1.CreationTimestamp <$> l)
    ∧ Forall (λ z, z = Machine.IonosMachine m
                   ∨ (infrav1.CreationTimestamp z
                      < infrav1.CreationTimestamp (Machine.IonosMachine m))%Z) l
    ∧ head l = Some (Machine.IonosMachine m)
    ∧ last l' = Some (Machine.IonosMachine m)
    ∧ runs (FindLatestMachine m labels) [listed m labels l None] (None, None)
    ∧ runs (FindLatestMachine m labels) [listed m labels l' None] (Some older, None)
    ∧ older ∈ l
    ∧ infrav1.Name older ≠ infrav1.Name (Machine.IonosMachine m)
    ∧ (infrav1.CreationTimestamp older
       < infrav1.CreationTimestamp (Machine.IonosMachine m))%Z.
Proof.
  pose (m1 := sampleMachine "m1" 3%Z).
  pose (m2 := sampleMachine "m2" 1%Z).
  pose (m3 := sampleMachine "m3" 2%Z).
  exists (sampleScope None m1), ∅, [m1; m2; m3], [m2; m3; m1], m3.
  split_and!.
  - by rewrite (Permutation_app_comm [m1] [m2; m3]).
  - simpl. apply (bool_decide_unpack _). reflexivity.
  - repeat constructor; simpl; right; lia.
  - done.
  - done.
  - apply (FindLatestMachine_scan (sampleScope None m1) ∅ m1 m2 [m3]).
  - apply (FindLatestMachine_scan (sampleScope None m1) ∅ m2 m3 [m1]).
  - apply list_elem_of_In. simpl. tauto.
  - done.
  - simpl. lia.
Qed.

Lemma FindLatestMachine_later_sibling_witness :
  infrav1.Name (sampleMachine "m1" 0)
    = infrav1.Name (Machine.IonosMachine (sampleScope None (sampleMachine "m1" 0)))
  ∧ runs (FindLatestMachine (sampleScope None (sampleMachine "m1" 0)) ∅)
         [listed (sampleScope None (sampleMachine "m1" 0)) ∅
                 [sampleMachine "m1" 0; sampleMachine "m2" 1] None]
         (Some (sampleMachine "m2" 1), None)
  ∧ runs (FindLatestMachine (sampleScope None (sampleMachine "m1" 0)) ∅)
         [listed (sampleScope None (sampleMachine "m1" 0)) ∅
                 [sampleMachine "m2" 1; sampleMachine "m1" 0] None]
         (Some (sampleMachine "m2" 1), None).
Proof.
  split; [reflexivity|].
  apply (FindLatestMachine_later_sibling
           (sampleScope None (sampleMachine "m1" 0)) ∅
           (sampleMachine "m1" 0) (sampleMachine "m2" 1)).
  - reflexivity.
  - simpl. discriminate.
  - simpl. lia.
Defined.

(** The claim C2 as stated fails when the own record is the later one:
    own "m1" created at 1, sibling "m2" created at 0, own record first.
    The strictly later machine is "m1", and the result is nil. *)
Lemma FindLatestMachine_later_own_counterexample :
  (infrav1.CreationTimestamp (sampleMachine "m2" 0)
   < infrav1.CreationTimestamp (sampleMachine "m1" 1))%Z
  ∧ runs (FindLatestMachine (sampleScope None (sampleMachine "m1" 1)) ∅)
         [listed (sampleScope None (sampleMachine "m1" 1)) ∅
                 [sampleMachine "m1" 1; sampleMachine "m2" 0] None]
         (None, None)
  ∧ ¬ runs (FindLatestMachine (sampleScope None (sampleMachine "m1" 1)) ∅)
           [listed (sampleScope None (sampleMachine "m1" 1)) ∅
                   [sampleMachine "m1" 1; sampleMachine "m2" 0] None]
           (Some (sampleMachine "m1" 1), None).
Proof.
  assert (runs (FindLatestMachine (sampleScope None (sampleMachine "m1" 1)) ∅)
            [listed (sampleScope None (sampleMachine "m1" 1)) ∅
                    [sampleMachine "m1" 1; sampleMachine "m2" 0] None]
            (None, None)) as Hrun.
  { apply (FindLatestMachine_scan (sampleScope None (sampleMachine "m1" 1)) ∅
             (sampleMachine "m1" 1) (sampleMachine "m2" 0) []). }
  split_and!; [simpl; lia | done |].
  intros Hbad. by pose proof (runs_det _ _ _ _ Hrun Hbad).
Qed.

Lemma FindLatestMachine_never_own_witness :
  runs (FindLatestMachine (sampleScope None (sampleMachine "m1" 1)) ∅)
       [listed (sampleScope None (sampleMachine "m1" 1)) ∅
               [sampleMachine "m1" 1; sampleMachine "m2" 0] None]
       (None, None)
  ∧ (∀ first second rest,
       [listed (sampleScope None (sampleMachine "m1" 1)) ∅
               [sampleMachine "m1" 1; sampleMachine "m2" 0] None]
         = [listed (sampleScope None (sampleMachine "m1" 1)) ∅
                   (first :: second :: rest) None] →
       infrav1.Name (scanLatest "m1" first (first :: second :: rest)) = "m1" →
       (None, None) = (@None infrav1.IonosCloudMachine, @None error))
  ∧ runs (FindLatestMachine (sampleScope None (sampleMachine "m1" 0)) ∅)
         [listed (sampleScope None (sampleMachine "m1" 0)) ∅
                 [sampleMachine "m1" 0; sampleMachine "m2" 1] None]
         (Some (sampleMachine "m2" 1), None)
  ∧ (∀ x, (Some (sampleMachine "m2" 1), @None error).1 = Some x →
          infrav1.Name x ≠ "m1").
Proof.
  assert (runs (FindLatestMachine (sampleScope None (sampleMachine "m1" 1)) ∅)
            [listed (sampleScope None (sampleMachine "m1" 1)) ∅
                    [sampleMachine "m1" 1; sampleMachine "m2" 0] None]
            (None, None)) as Hnil.
  { apply (FindLatestMachine_scan (sampleScope None (sampleMachine "m1" 1)) ∅
             (sampleMachine "m1" 1) (sampleMachine "m2" 0) []). }
  assert (runs (FindLatestMachine (sampleScope None (sampleMachine "m1" 0)) ∅)
            [listed (sampleScope None (sampleMachine "m1" 0)) ∅
                    [sampleMachine "m1" 0; sampleMachine "m2" 1] None]
            (Some (sampleMachine "m2" 1), None)) as Hsib.
  { apply (FindLatestMachine_scan (sampleScope None (sampleMachine "m1" 0)) ∅
             (sampleMachine "m1" 0) (sampleMachine "m2" 1) []). }
  split; [exact Hnil|]. split.
  - exact (proj2 (FindLatestMachine_never_own _ _ _ _ Hnil)).
  - split; [exact Hsib|].
    exact (proj1 (FindLatestMachine_never_own _ _ _ _ Hsib)).
Defined.

Lemma FindLatestMachine_tie_last_wins_witness :
  runs (FindLatestMachine (sampleScope None (sampleMachine "m1" 1)) ∅)
       [listed (sampleScope None (sampleMachine "m1" 1)) ∅
               ([] ++ sampleMachine "m2" 5
                   :: [sampleMachine "m1" 1] ++ sampleMachine "m3" 5
                   :: [sampleMachine "m4" 2]) None]
       (Some (sampleMachine "m3" 5), None).
Proof.
  apply (FindLatestMachine_tie_last_wins
           (sampleScope None (sampleMachine "m1" 1)) ∅
           [] (sampleMachine "m2" 5) [sampleMachine "m1" 1]
           (sampleMachine "m3" 5) [sampleMachine "m4" 2] 5%Z).
  - intros z Hz. apply list_elem_of_In in Hz. simpl in Hz.
    destruct Hz as [<-|[<-|[<-|[<-|[]]]]]; simpl; lia.
  - simpl. discriminate.
  - reflexivity.
  - simpl. discriminate.
  - reflexivity.
  - intros z Hz _. apply list_elem_of_In in Hz. simpl in Hz.
    destruct Hz as [<-|[]]. simpl. lia.
Defined.

(** ** Environments give runs *)

(** Whatever the environment, a program runs to a result, and the trace
    [exec] records is a run of the program. *)
Lemma exec_runs {W R} (h : handler W) (p : prog R) (w : W) :
  runs p (exec h p w).2 (exec h p w).1.1.
Proof.
  revert w. induction p as [r|X e k IH]; intros w; simpl; [done|].
  destruct (h X e w) as [x w'] eqn:Hh.
  specialize (IH x w'). destruct (exec h (k x) w') as [[r w''] t]. simpl in *.
  eauto.
Qed.

(** ** The bootstrap secret *)

(** C6: a run of [GetBootstrapDataSecret] either finds the bootstrap-data
    reference empty, makes no call at all and fails with
    [NoBootstrapData]; or finds it non-empty and makes exactly one point
    lookup, with the scope's client, the namespace of the provider machine
    and the reference as name, and returns the secret the store answered or
    the very error the store answered.  So no lookup happens exactly when
    the reference is empty. *)
Theorem GetBootstrapDataSecret_single_lookup :
  ∀ (m : Machine.t) t r,
    runs (GetBootstrapDataSecret m) t r →
    let name :=
      ptr.Deref (clusterv1.DataSecretName
                   (clusterv1.Bootstrap_ (clusterv1.Spec (Machine.Machine m)))) "" in
    (name = "" ∧ t = [] ∧ r = (None, Some NoBootstrapData))
    ∨ (name ≠ ""
       ∧ ∃ answer,
           lookups t =
             [(Machine.client m,
               {| client.Namespace := infrav1.Namespace (Machine.IonosMachine m);
                  client.Name := name |},
               answer)]
           ∧ r = match answer with
                 | inl secret => (Some secret, None)
                 | inr err => (None, Some err)
                 end).
Proof.
  intros m t r. unfold GetBootstrapDataSecret. cbv zeta.
  destruct (decide _) as [Hempty|Hname]; simpl.
  - intros [-> ->]. by left.
  - intros ([] & t1 & -> & answer & t2 & -> & Hrest). right.
    split; [done|]. exists answer.
    destruct answer as [secret|err]; simpl in Hrest;
      destruct Hrest as [-> ->]; done.
Qed.

Lemma GetBootstrapDataSecret_single_lookup_witness :
  runs (GetBootstrapDataSecret
          (sampleScope (Some "m1-bootstrap") (sampleMachine "m1" 0)))
       [did_Info "GetBoostrapDataSecret" 4 "searching for bootstrap data"
                 [("secret", "default/m1-bootstrap")];
        did_Get sampleClient
                {| client.Namespace := "default"; client.Name := "m1-bootstrap" |}
                (inr (errors_New "secrets not found"))]
       (None, Some (errors_New "secrets not found"))
  ∧ ("m1-bootstrap" ≠ ""
     ∧ ∃ answer,
         [(sampleClient,
           {| client.Namespace := "default"; client.Name := "m1-bootstrap" |},
           inr (errors_New "secrets not found"))]
           = [(sampleClient,
               {| client.Namespace := "default"; client.Name := "m1-bootstrap" |},
               answer)]
         ∧ (@None corev1.Secret, Some (errors_New "secrets not found"))
             = match answer with
               | inl secret => (Some secret, None)
               | inr err => (None, Some err)
               end)
  ∧ runs (GetBootstrapDataSecret (sampleScope (Some "") (sampleMachine "m1" 0)))
         [] (None, Some NoBootstrapData).
Proof.
  assert (runs (GetBootstrapDataSecret
                  (sampleScope (Some "m1-bootstrap") (sampleMachine "m1" 0)))
            [did_Info "GetBoostrapDataSecret" 4 "searching for bootstrap data"
                      [("secret", "default/m1-bootstrap")];
             did_Get sampleClient
                     {| client.Namespace := "default"; client.Name := "m1-bootstrap" |}
                     (inr (errors_New "secrets not found"))]
            (None, Some (errors_New "secrets not found"))) as Hrun.
  { simpl. exists tt. eexists. split; [reflexivity|].
    exists (inr (errors_New "secrets not found")). eexists.
    split; [reflexivity|]. simpl. done. }
  split; [exact Hrun|]. split.
  - destruct (GetBootstrapDataSecret_single_lookup _ _ _ Hrun) as [[H _]|H].
    + discriminate H.
    + exact H.
  - simpl. done.
Defined.

(** ** Construction *)

(** C4 (as amended): when one of the four inputs is nil, [NewMachine]
    makes no call and fails with [InvalidParams].  When all four are
    supplied it asks for the patch helper of the provider machine, once; if
    that succeeds the scope is returned and holds the inputs unchanged, and
    if it fails the construction fails with that error wrapped. *)
Theorem NewMachine_checks_params :
  ∀ (params : MachineParams.t) t r,
    runs (NewMachine params) t r →
    (MachineParams.Client params = None
     ∨ MachineParams.Machine params = None
     ∨ MachineParams.IonosMachine params = None
     ∨ MachineParams.ClusterScope params = None →
     t = [] ∧ ∃ err, r = (None, Some err) ∧ InvalidParams err)
    ∧ (∀ c machine ionosMachine clusterScope,
         params = {| MachineParams.Client := Some c;
                     MachineParams.Machine := Some machine;
                     MachineParams.ClusterScope := Some clusterScope;
                     MachineParams.IonosMachine := Some ionosMachine |} →
         ∃ answer,
           t = [did_NewHelper ionosMachine c answer]
           ∧ match answer with
             | inl helper =>
                 ∃ scope,
                   r = (Some scope, None)
                   ∧ Machine.client scope = c
                   ∧ Machine.Machine scope = machine
                   ∧ Machine.IonosMachine scope = ionosMachine
                   ∧ Machine.ClusterScope scope = clusterScope
                   ∧ Machine.patchHelper scope = helper
                   ∧ DatacenterID scope
                     = infrav1.DatacenterID (infrav1.Spec ionosMachine)
             | inr err =>
                 r = (None, Some (fmt_Errorf_w "failed to init patch helper" err))
             end).
Proof.
  intros [c machine clusterScope ionosMachine] t r. unfold NewMachine. simpl.
  intros Hrun. split.
  - intros Hnil. unfold InvalidParams.
    destruct c, machine, ionosMachine, clusterScope; simpl in Hrun;
      try (destruct Hrun as [-> ->]; split; [done|]; eexists; split; [done|];
           tauto).
    destruct Hnil as [?|[?|[?|?]]]; discriminate.
  - intros c' machine' ionosMachine' clusterScope' [= -> -> -> ->].
    simpl in Hrun. destruct Hrun as (answer & t' & -> & Hrest).
    exists answer. destruct answer as [helper|err]; simpl in Hrest;
      destruct Hrest as [-> ->]; [|done].
    split; [done|]. eexists. split; [done|]. done.
Qed.

Lemma NewMachine_checks_params_witness :
  runs (NewMachine {| MachineParams.Client := Some sampleClient;
                      MachineParams.Machine := None;
                      MachineParams.ClusterScope := Some sampleCluster;
                      MachineParams.IonosMachine := Some (sampleMachine "m1" 0) |})
       []
       (None, Some (errors_New "machine scope params lack a Cluster API machine"))
  ∧ ([] = @nil answered
     ∧ ∃ err,
         (None, Some (errors_New "machine scope params lack a Cluster API machine"))
           = (@None Machine.t, Some err)
         ∧ InvalidParams err)
  ∧ runs (NewMachine {| MachineParams.Client := Some sampleClient;
                        MachineParams.Machine := Some (sampleCAPIMachine "m1" None);
                        MachineParams.ClusterScope := Some sampleCluster;
                        MachineParams.IonosMachine := Some (sampleMachine "m1" 0) |})
         [did_NewHelper (sampleMachine "m1" 0) sampleClient
                        (inl {| patch.before := sampleMachine "m1" 0 |})]
         (Some (sampleScope None (sampleMachine "m1" 0)), None)
  ∧ ∃ answer,
      [did_NewHelper (sampleMachine "m1" 0) sampleClient
                     (inl {| patch.before := sampleMachine "m1" 0 |})]
      = [did_NewHelper (sampleMachine "m1" 0) sampleClient answer]
      ∧ match answer with
        | inl helper =>
            ∃ scope,
              (Some (sampleScope None (sampleMachine "m1" 0)), @None error)
              = (Some scope, None)
              ∧ Machine.client scope = sampleClient
              ∧ Machine.Machine scope = sampleCAPIMachine "m1" None
              ∧ Machine.IonosMachine scope = sampleMachine "m1" 0
              ∧ Machine.ClusterScope scope = sampleCluster
              ∧ Machine.patchHelper scope = helper
              ∧ DatacenterID scope = "dc-1"
        | inr err =>
            (Some (sampleScope None (sampleMachine "m1" 0)), @None error)
            = (None, Some (fmt_Errorf_w "failed to init patch helper" err))
        end.
Proof.
  assert (runs (NewMachine {| MachineParams.Client := Some sampleClient;
                              MachineParams.Machine := None;
                              MachineParams.ClusterScope := Some sampleCluster;
                              MachineParams.IonosMachine :=
                                Some (sampleMachine "m1" 0) |})
            []
            (None, Some (errors_New "machine scope params lack a Cluster API machine")))
    as Hnil.
  { simpl. done. }
  assert (runs (NewMachine {| MachineParams.Client := Some sampleClient;
                              MachineParams.Machine :=
                                Some (sampleCAPIMachine "m1" None);
                              MachineParams.ClusterScope := Some sampleCluster;
                              MachineParams.IonosMachine :=
                                Some (sampleMachine "m1" 0) |})
            [did_NewHelper (sampleMachine "m1" 0) sampleClient
                           (inl {| patch.before := sampleMachine "m1" 0 |})]
            (Some (sampleScope None (sampleMachine "m1" 0)), None)) as Hok.
  { simpl. eexists _, _. split; [reflexivity|]. simpl. done. }
  split; [exact Hnil|]. split.
  - apply (proj1 (NewMachine_checks_params _ _ _ Hnil)).
    right. left. reflexivity.
  - split; [exact Hok|].
    exact (proj2 (NewMachine_checks_params _ _ _ Hok) _ _ _ _ eq_refl).
Defined.

(** The claim C4 as stated fails when all four inputs are supplied and the
    patch helper cannot be set up: the construction does not succeed, and
    the error is not one of the [InvalidParams] errors. *)
Lemma NewMachine_helper_failure_counterexample :
  runs (NewMachine {| MachineParams.Client := Some sampleClient;
                      MachineParams.Machine := Some (sampleCAPIMachine "m1" None);
                      MachineParams.ClusterScope := Some sampleCluster;
                      MachineParams.IonosMachine := Some (sampleMachine "m1" 0) |})
       [did_NewHelper (sampleMachine "m1" 0) sampleClient
                      (inr (errors_New "no kind is registered for the type"))]
       (None, Some (fmt_Errorf_w "failed to init patch helper"
                      (errors_New "no kind is registered for the type")))
  ∧ ¬ InvalidParams (fmt_Errorf_w "failed to init patch helper"
                       (errors_New "no kind is registered for the type")).
Proof.
  split.
  - simpl. eexists _, _. split; [reflexivity|]. simpl. done.
  - unfold InvalidParams. intros [H|[H|[H|H]]]; discriminate H.
Qed.

(** ** Commit *)

(** Every run of [PatchObject] is a summary followed by a patch of the
    record the summary answered. *)
Lemma PatchObject_runs_inv m t r :
  runs (PatchObject m) t r ↔
  ∃ o err,
    t = [did_SetSummary (Machine.IonosMachine m)
                        [infrav1.MachineProvisionedCondition] o;
         did_Patch (Machine.patchHelper m) (time.Second * 10)%Z o
                   [clusterv1.ReadyCondition; infrav1.MachineProvisionedCondition]
                   err]
    ∧ r = (err, Machine.setIonosMachine m o).
Proof.
  unfold PatchObject. simpl. split.
  - intros (o & t1 & -> & err & t2 & -> & -> & ->). by exists o, err.
  - intros (o & err & -> & ->). exists o. eexists. split; [done|].
    exists err. eexists. done.
Qed.

(** C1 (as amended): every run of [PatchObject] first recomputes the
    summary of the record, from the condition subset {MachineProvisioned}
    and no other, and then commits the very record the summary produced,
    under a deadline of ten seconds; [Ready] and [MachineProvisioned]
    together are the conditions the patch owns. *)
Theorem PatchObject_summary_before_commit :
  ∀ (m : Machine.t) t r,
    runs (PatchObject m) t r →
    summaries t = [[infrav1.MachineProvisionedCondition]]
    ∧ ∃ o err,
        t = [did_SetSummary (Machine.IonosMachine m)
                            [infrav1.MachineProvisionedCondition] o;
             did_Patch (Machine.patchHelper m) (time.Second * 10)%Z o
                       [clusterv1.ReadyCondition;
                        infrav1.MachineProvisionedCondition] err]
        ∧ r = (err, Machine.setIonosMachine m o).
Proof.
  intros m t r (o & err & -> & ->)%PatchObject_runs_inv.
  split; [done|]. by exists o, err.
Qed.

Lemma PatchObject_summary_before_commit_witness :
  runs (PatchObject (sampleScope None (sampleProvisioned "m1" clusterv1.ConditionTrue)))
       (commitTrace (sampleScope None (sampleProvisioned "m1" clusterv1.ConditionTrue))
                    None)
       (None, committed (sampleScope None
                           (sampleProvisioned "m1" clusterv1.ConditionTrue)))
  ∧ summaries
      (commitTrace (sampleScope None (sampleProvisioned "m1" clusterv1.ConditionTrue))
                   None)
    = [[infrav1.MachineProvisionedCondition]].
Proof.
  assert (runs (PatchObject
                  (sampleScope None (sampleProvisioned "m1" clusterv1.ConditionTrue)))
            (commitTrace
               (sampleScope None (sampleProvisioned "m1" clusterv1.ConditionTrue)) None)
            (None, committed (sampleScope None
                                (sampleProvisioned "m1" clusterv1.ConditionTrue))))
    as Hrun.
  { apply PatchObject_runs_inv. eexists _, _. split; reflexivity. }
  split; [exact Hrun|].
  exact (proj1 (PatchObject_summary_before_commit _ _ _ Hrun)).
Defined.

(** The claim C1 as stated fails on the subset: in the commit of a
    provisioned machine the summary is computed from {MachineProvisioned};
    [Ready] is not among the conditions it is computed from. *)
Lemma PatchObject_summary_subset_counterexample :
  runs (PatchObject (sampleScope None (sampleProvisioned "m1" clusterv1.ConditionTrue)))
       (commitTrace (sampleScope None (sampleProvisioned "m1" clusterv1.ConditionTrue))
                    None)
       (None, committed (sampleScope None
                           (sampleProvisioned "m1" clusterv1.ConditionTrue)))
  ∧ ¬ Forall (λ conds : list clusterv1.ConditionType,
                ∀ c, c ∈ conds ↔
                     c = infrav1.MachineProvisionedCondition
                     ∨ c = clusterv1.ReadyCondition)
             (summaries
                (commitTrace
                   (sampleScope None (sampleProvisioned "m1" clusterv1.ConditionTrue))
                   None)).
Proof.
  split.
  - apply PatchObject_runs_inv. eexists _, _. split; reflexivity.
  - simpl. intros H. apply Forall_cons in H as [H _].
    specialize (H clusterv1.ReadyCondition) as [_ H].
    specialize (H (or_intror eq_refl)).
    apply list_elem_of_singleton in H. discriminate H.
Qed.

(** ** Finalize *)

Lemma commits_app t1 t2 : commits (t1 ++ t2) = commits t1 ++ commits t2.
Proof. apply omap_app. Qed.

Lemma sleeps_app t1 t2 : sleeps (t1 ++ t2) = sleeps t1 ++ sleeps t2.
Proof. apply omap_app. Qed.

(** The error a run of the loop ends with when every try failed: the last
    one, or the one handed in when there was no try. *)
Definition lastError (errs : list error) (lastErr : option error) : option error :=
  match last errs with
  | Some e => Some e
  | None => lastErr
  end.

Lemma lastError_cons e errs lastErr :
  lastError (e :: errs) lastErr = lastError errs (Some e).
Proof.
  unfold lastError. destruct errs as [|e' errs]; [done|].
  rewrite last_cons. by destruct (last (e' :: errs)).
Qed.

Section RetryLoop.
Context {S : Type} (fn : S → prog (option error * S)).

(** One try is one commit attempt and no pause. *)
Hypothesis fn_once :
  ∀ s t r, runs (fn s) t r → commits t = [r.1] ∧ sleeps t = [].

Lemma loop_unfold n delay factor retriable lastErr s :
  retry.loop (Datatypes.S n) delay factor retriable fn lastErr s
  = fn s ≫= (λ '(err, s'),
      match err with
      | None => mret (None, s')
      | Some e =>
          if retriable e then
            match n with
            | O => mret (Some e, s')
            | _ => call (time_Sleep delay) ≫= (λ _,
                     retry.loop n (delay * factor)%Z factor retriable fn (Some e) s')
            end
          else mret (Some e, s')
      end).
Proof. reflexivity. Qed.

(** With a predicate that retries every error, the loop stops at the
    first success, or after [steps] failures with the last error; the
    pauses follow the geometric schedule. *)
Lemma loop_always_retry steps :
  ∀ delay factor lastErr s t r,
    runs (retry.loop steps delay factor (λ _, true) fn lastErr s) t r →
    ∃ errs,
      (commits t = (Some <$> errs) ++ [None]
       ∧ length errs < steps
       ∧ r.1 = None
       ∧ sleeps t = schedule (length errs) delay factor)
      ∨ (commits t = Some <$> errs
         ∧ length errs = steps
         ∧ r.1 = lastError errs lastErr
         ∧ sleeps t = schedule (steps - 1) delay factor).
Proof.
  induction steps as [|n IH]; intros delay factor lastErr s t r Hrun.
  - simpl in Hrun. destruct Hrun as [-> ->]. exists []. right. done.
  - rewrite loop_unfold in Hrun.
    apply runs_bind in Hrun as (t1 & t2 & [err s1] & -> & Hfn & Hrest).
    apply fn_once in Hfn as [Hc Hs]. simpl in Hc.
    rewrite commits_app, sleeps_app, Hc, Hs. simpl.
    destruct err as [e|].
    + destruct n as [|n'].
      * simpl in Hrest. destruct Hrest as [-> ->].
        exists [e]. right. done.
      * apply runs_bind in Hrest as (t3 & t4 & [] & -> & Hsleep & Hloop).
        simpl in Hsleep. destruct Hsleep as ([] & t5 & -> & -> & _).
        apply IH in Hloop as (errs & [(Hc' & Hlen & Hr & Hs')|(Hc' & Hlen & Hr & Hs')]).
        -- exists (e :: errs). left. simpl. rewrite Hc', Hs'.
           split_and!; [done|lia|done|done].
        -- exists (e :: errs). right. simpl.
           rewrite Hc', Hs', lastError_cons, Hr.
           split_and!; [done|lia|done|].
           by replace (Datatypes.S n' - 1) with n' by lia.
    + simpl in Hrest. destruct Hrest as [-> ->].
      exists []. left. simpl. split_and!; [done|lia|done|done].
Qed.
End RetryLoop.

(** C5: [Finalize] retries the commit on every error.  The commit
    attempts of a run are either some failures, fewer than the steps of
    the policy, followed by one success, and then [Finalize] returns no
    error; or exactly as many failures as the policy has steps, and then
    [Finalize] returns the error of the last attempt.  The pauses between
    attempts grow by the factor of the policy.  The retry loop is the model
    of the library loop stated with [retry.loop]. *)
Theorem Finalize_retries_every_error :
  ∀ (DefaultBackoff : wait.Backoff) (m : Machine.t) t r,
    runs (Finalize DefaultBackoff m) t r →
    ∃ errs,
      (commits t = (Some <$> errs) ++ [None]
       ∧ length errs < wait.Steps DefaultBackoff
       ∧ r.1 = None
       ∧ sleeps t = schedule (length errs) (wait.Duration_ DefaultBackoff)
                             (wait.Factor DefaultBackoff))
      ∨ (commits t = Some <$> errs
         ∧ length errs = wait.Steps DefaultBackoff
         ∧ r.1 = last errs
         ∧ sleeps t = schedule (wait.Steps DefaultBackoff - 1)
                               (wait.Duration_ DefaultBackoff)
                               (wait.Factor DefaultBackoff)).
Proof.
  intros b m t r Hrun. unfold Finalize, retry.OnError in Hrun.
  apply loop_always_retry in Hrun as (errs & [H|(Hc & Hlen & Hr & Hs)]).
  - exists errs. by left.
  - exists errs. right. split_and!; try done.
    rewrite Hr. unfold lastError. by destruct (last errs).
  - intros s t' r' (o & err & -> & ->)%PatchObject_runs_inv. done.
Qed.

Lemma Finalize_retries_every_error_witness :
  runs (Finalize sampleBackoff
          (sampleScope None (sampleProvisioned "m1" clusterv1.ConditionFalse)))
       (sampleFinalizeTrace
          (sampleScope None (sampleProvisioned "m1" clusterv1.ConditionFalse)))
       (None,
        committed (committed (committed
          (sampleScope None (sampleProvisioned "m1" clusterv1.ConditionFalse)))))
  ∧ commits (sampleFinalizeTrace
               (sampleScope None (sampleProvisioned "m1" clusterv1.ConditionFalse)))
    = [Some sampleConflict; Some sampleConflict; None]
  ∧ ∃ errs,
      (commits (sampleFinalizeTrace
                  (sampleScope None (sampleProvisioned "m1" clusterv1.ConditionFalse)))
       = (Some <$> errs) ++ [None]
       ∧ length errs < 4
       ∧ @None error = None
       ∧ sleeps (sampleFinalizeTrace
                   (sampleScope None (sampleProvisioned "m1" clusterv1.ConditionFalse)))
         = schedule (length errs) (10 * time.Millisecond)%Z 5)
      ∨ (commits (sampleFinalizeTrace
                    (sampleScope None (sampleProvisioned "m1" clusterv1.ConditionFalse)))
         = Some <$> errs
         ∧ length errs = 4
         ∧ None = last errs
         ∧ sleeps (sampleFinalizeTrace
                     (sampleScope None (sampleProvisioned "m1" clusterv1.ConditionFalse)))
           = schedule (4 - 1) (10 * time.Millisecond)%Z 5).
Proof.
  assert (runs (Finalize sampleBackoff
                  (sampleScope None (sampleProvisioned "m1" clusterv1.ConditionFalse)))
            (sampleFinalizeTrace
               (sampleScope None (sampleProvisioned "m1" clusterv1.ConditionFalse)))
            (None,
             committed (committed (committed
               (sampleScope None (sampleProvisioned "m1" clusterv1.ConditionFalse))))))
    as Hrun.
  { exact (exec_runs (store.env conditions.SetSummary)
             (Finalize sampleBackoff
                (sampleScope None (sampleProvisioned "m1" clusterv1.ConditionFalse)))
             {| store.stored := sampleMachine "m1" 0;
                store.faults := [Some sampleConflict; Some sampleConflict] |}). }
  split; [exact Hrun|]. split; [reflexivity|].
  exact (Finalize_retries_every_error _ _ _ _ Hrun).
Defined.

(** ** Commit twice *)

Lemma apply_idem d o : store.apply d (store.apply d o) = store.apply d o.
Proof. destruct d as [[sp|] [st|]], o; reflexivity. Qed.

Lemma Set_idem c cs : conditions.Set_ c (conditions.Set_ c cs) = conditions.Set_ c cs.
Proof.
  induction cs as [|c' cs IH]; simpl.
  - by rewrite decide_True.
  - destruct (decide (clusterv1.Type_ c' = clusterv1.Type_ c)) as [Heq|Hne]; simpl.
    + by rewrite decide_True.
    + by rewrite decide_False, IH.
Qed.

(** Writing the summary leaves the conditions it is computed from alone. *)
Lemma Set_scope conds c cs :
  clusterv1.Type_ c = clusterv1.ReadyCondition →
  filter (λ c', conditions.inScope conds c' = true) (conditions.Set_ c cs)
  = filter (λ c', conditions.inScope conds c' = true) cs.
Proof.
  intros Hready.
  assert (∀ c', clusterv1.Type_ c' = clusterv1.ReadyCondition →
                conditions.inScope conds c' ≠ true) as Hout.
  { intros c' Hc'. unfold conditions.inScope.
    rewrite (bool_decide_eq_false_2 (_ ≠ _)) by (intros H; by apply H).
    rewrite andb_false_r. done. }
  induction cs as [|c' cs IH]; simpl.
  - rewrite filter_cons_False by auto. done.
  - destruct (decide (clusterv1.Type_ c' = clusterv1.Type_ c)) as [Heq|Hne].
    + rewrite !filter_cons_False; [done| |]; apply Hout; congruence.
    + rewrite !filter_cons, IH. done.
Qed.

Lemma summary_Ready conds cs c :
  conditions.summary conds cs = Some c → clusterv1.Type_ c = clusterv1.ReadyCondition.
Proof.
  unfold conditions.summary. destruct (filter _ cs); [done|].
  by intros [= <-].
Qed.

(** The model of the summary is idempotent. *)
Lemma SetSummary_idem o conds :
  conditions.SetSummary (conditions.SetSummary o conds) conds
  = conditions.SetSummary o conds.
Proof.
  unfold conditions.SetSummary at 2.
  destruct (conditions.summary conds (infrav1.Conditions (infrav1.Status o)))
    as [c|] eqn:Hsum.
  - pose proof (summary_Ready _ _ _ Hsum) as Hready.
    unfold conditions.SetSummary. simpl.
    assert (conditions.summary conds
              (conditions.Set_ c (infrav1.Conditions (infrav1.Status o))) = Some c)
      as ->.
    { unfold conditions.summary in *. rewrite !Set_scope by exact Hready.
      exact Hsum. }
    unfold infrav1.setStatus. simpl. by rewrite Hsum, Set_idem.
  - unfold conditions.SetSummary. by rewrite Hsum.
Qed.

(** C9 (as amended): two calls of [PatchObject] in succession, the second
    on the scope and the store the first one left.  When the first call
    succeeded, the second leaves the record as it is, and the diff it takes
    between the snapshot and the record changes nothing when applied to the
    store: whether the store accepts or refuses the second request, it
    holds what it held after the first.  The summary is taken to be
    idempotent. *)
Theorem PatchObject_twice_no_op :
  ∀ (summarise : infrav1.IonosCloudMachine → list clusterv1.ConditionType →
                 infrav1.IonosCloudMachine),
    (∀ o conds, summarise (summarise o conds) conds = summarise o conds) →
    ∀ (m m1 m2 : Machine.t) (w w1 w2 : store.World) t1 t2 r2,
      exec (store.env summarise) (PatchObject m) w = (None, m1, w1, t1) →
      exec (store.env summarise) (PatchObject m1) w1 = (r2, m2, w2, t2) →
      Machine.IonosMachine m2 = Machine.IonosMachine m1
      ∧ store.apply
          (store.diff (patch.before (Machine.patchHelper m1)) (Machine.IonosMachine m2))
          (store.stored w1)
        = store.stored w1
      ∧ store.stored w2 = store.stored w1.
Proof.
  intros summarise Hidem m m1 m2 w w1 w2 t1 t2 r2 H1 H2.
  simpl in H1.
  assert (Machine.IonosMachine m1
          = summarise (Machine.IonosMachine m) [infrav1.MachineProvisionedCondition]
          ∧ Machine.patchHelper m1 = Machine.patchHelper m
          ∧ store.stored w1
            = store.apply
                (store.diff (patch.before (Machine.patchHelper m))
                            (Machine.IonosMachine m1))
                (store.stored w)) as (Ho & Hh & Hw).
  { destruct (store.faults w) as [|[e|] rest]; simplify_eq/=; done. }
  simpl in H2. rewrite Ho, Hidem, <- Ho in H2.
  assert (Machine.IonosMachine m2 = Machine.IonosMachine m1) as Hm2.
  { destruct (store.faults w1) as [|[e|] rest]; simplify_eq/=; done. }
  assert (store.apply
            (store.diff (patch.before (Machine.patchHelper m1))
                        (Machine.IonosMachine m1))
            (store.stored w1) = store.stored w1) as Hnoop.
  { rewrite Hh, Hw. apply apply_idem. }
  split; [done|]. split; [by rewrite Hm2|].
  destruct (store.faults w1) as [|[e|] rest]; simplify_eq/=; done.
Qed.

Lemma PatchObject_twice_no_op_witness :
  exec (store.env conditions.SetSummary) (PatchObject sampleMutatedScope)
       (sampleWorld [])
  = (None, committed sampleMutatedScope,
     {| store.stored := sampleFailed "m1"; store.faults := [] |},
     commitTrace sampleMutatedScope None)
  ∧ store.stored (sampleWorld []) ≠ sampleFailed "m1"
  ∧ Machine.IonosMachine (twoCommits sampleMutatedScope (sampleWorld [])).2.1.1.2
    = Machine.IonosMachine (committed sampleMutatedScope)
  ∧ store.apply
      (store.diff (patch.before (Machine.patchHelper (committed sampleMutatedScope)))
         (Machine.IonosMachine
            (twoCommits sampleMutatedScope (sampleWorld [])).2.1.1.2))
      (sampleFailed "m1")
    = sampleFailed "m1"
  ∧ store.stored (twoCommits sampleMutatedScope (sampleWorld [])).2.1.2
    = sampleFailed "m1".
Proof.
  split; [reflexivity|]. split; [discriminate|].
  exact (PatchObject_twice_no_op conditions.SetSummary SetSummary_idem
           sampleMutatedScope (committed sampleMutatedScope)
           (twoCommits sampleMutatedScope (sampleWorld [])).2.1.1.2
           (sampleWorld [])
           {| store.stored := sampleFailed "m1"; store.faults := [] |}
           (twoCommits sampleMutatedScope (sampleWorld [])).2.1.2
           (commitTrace sampleMutatedScope None)
           (twoCommits sampleMutatedScope (sampleWorld [])).2.2
           (twoCommits sampleMutatedScope (sampleWorld [])).2.1.1.1
           eq_refl eq_refl).
Defined.

(** The claim C9 as stated fails when the store refuses the first call:
    the record carries a failure the snapshot does not, the first request
    meets a conflict and writes nothing, the record is not touched, and the
    second request writes the failure to the store.  The diff of the second
    call is not empty. *)
Lemma PatchObject_twice_counterexample :
  (twoCommits sampleMutatedScope (sampleWorld [Some sampleConflict])).1.1.1.1
  = Some sampleConflict
  ∧ Machine.IonosMachine
      (twoCommits sampleMutatedScope (sampleWorld [Some sampleConflict])).1.1.1.2
    = Machine.IonosMachine sampleMutatedScope
  ∧ (twoCommits sampleMutatedScope (sampleWorld [Some sampleConflict])).2.1.1.1
    = None
  ∧ store.stored
      (twoCommits sampleMutatedScope (sampleWorld [Some sampleConflict])).2.1.2
    ≠ store.stored
        (twoCommits sampleMutatedScope (sampleWorld [Some sampleConflict])).1.1.2
  ∧ ¬ store.empty
        (store.diff (patch.before (Machine.patchHelper sampleMutatedScope))
                    (Machine.IonosMachine sampleMutatedScope)).
Proof.
  split_and!; try reflexivity.
  - discriminate.
  - intros [_ H]. discriminate H.
Qed.

(** * Further properties of the scope *)

(** ** The provider ID *)

(** X1: [SetProviderID] stores the identifier behind the scheme
    "ionos://"; two scopes whose stored provider IDs agree were given the
    same identifier. *)
Theorem SetProviderID_injective :
  ∀ (m m' : Machine.t) (a b : string),
    infrav1.ProviderID (infrav1.Spec (Machine.IonosMachine (SetProviderID m a)))
    = infrav1.ProviderID (infrav1.Spec (Machine.IonosMachine (SetProviderID m' b))) →
    a = b
    ∧ infrav1.ProviderID (infrav1.Spec (Machine.IonosMachine (SetProviderID m a)))
      = Some ("ionos://" +:+ a)
    ∧ String.length ("ionos://" +:+ a) = 8 + String.length a.
Proof.
  intros m m' a b H. simpl in H. unfold ptr.To in H.
  split; [|done]. by simplify_eq/=.
Qed.

Lemma SetProviderID_injective_witness :
  infrav1.ProviderID
    (infrav1.Spec (Machine.IonosMachine
       (SetProviderID (sampleScope None (sampleMachine "m1" 0)) "abc")))
  = infrav1.ProviderID
      (infrav1.Spec (Machine.IonosMachine
         (SetProviderID (sampleScope None (sampleMachine "m2" 1)) "abc")))
  ∧ "abc" = "abc"
  ∧ infrav1.ProviderID
      (infrav1.Spec (Machine.IonosMachine
         (SetProviderID (sampleScope None (sampleMachine "m1" 0)) "abc")))
    = Some "ionos://abc"
  ∧ String.length "ionos://abc" = 11.
Proof.
  split; [reflexivity|].
  exact (SetProviderID_injective
           (sampleScope None (sampleMachine "m1" 0))
           (sampleScope None (sampleMachine "m2" 1)) "abc" "abc" eq_refl).
Defined.


(** ** What the scan of [FindLatestMachine] computes *)

Section ScanLatest.
Variable ownName : string.
Implicit Types (c x z : infrav1.IonosCloudMachine)
               (l : list infrav1.IonosCloudMachine).

(** Started on a sibling, the scan ends on a sibling of the list (or the
    start) that no sibling of the list is later than. *)
Lemma scanLatest_from_sibling l : ∀ c,
  infrav1.Name c ≠ ownName →
  infrav1.Name (scanLatest ownName c l) ≠ ownName
  ∧ (scanLatest ownName c l = c ∨ scanLatest ownName c l ∈ l)
  ∧ (infrav1.CreationTimestamp c
     ≤ infrav1.CreationTimestamp (scanLatest ownName c l))%Z
  ∧ ∀ z, z ∈ l → infrav1.Name z ≠ ownName →
         (infrav1.CreationTimestamp z
          ≤ infrav1.CreationTimestamp (scanLatest ownName c l))%Z.
Proof.
  unfold scanLatest.
  induction l as [|y l IH]; intros c Hc; simpl.
  - split_and!; [done|by left|lia|]. intros z Hz. by apply not_elem_of_nil in Hz.
  - destruct (decide (infrav1.Name y = ownName)) as [Hy|Hy].
    { rewrite keepLatest_keep_own by done.
      destruct (IH c Hc) as (Hn & Hin & Hle & Hmax).
      split_and!; [done| |done|].
      - destruct Hin as [->|Hin]; [by left|right; by right].
      - intros z [->|Hz]%elem_of_cons Hz'; [done|by apply Hmax]. }
    destruct (decide (infrav1.CreationTimestamp y
                      < infrav1.CreationTimestamp c)%Z) as [Hlt|Hge].
    + rewrite keepLatest_keep_older by done.
      destruct (IH c Hc) as (Hn & Hin & Hle & Hmax).
      split_and!; [done| |done|].
      * destruct Hin as [->|Hin]; [by left|right; by right].
      * intros z [->|Hz]%elem_of_cons Hz'; [lia|by apply Hmax].
    + rewrite keepLatest_replace by (done || lia).
      destruct (IH y Hy) as (Hn & Hin & Hle & Hmax).
      split_and!; [done| |lia|].
      * right. destruct Hin as [->|Hin]; [by left|by right].
      * intros z [->|Hz]%elem_of_cons Hz'; [done|by apply Hmax].
Qed.

(** Started on a record with the own name, the scan either stays there,
    and then every sibling of the list is strictly older than the start, or
    ends on a sibling of the list that no sibling of the list is later
    than. *)
Lemma scanLatest_from_own l : ∀ c,
  infrav1.Name c = ownName →
  (scanLatest ownName c l = c
   ∧ ∀ z, z ∈ l → infrav1.Name z ≠ ownName →
          (infrav1.CreationTimestamp z < infrav1.CreationTimestamp c)%Z)
  ∨ (infrav1.Name (scanLatest ownName c l) ≠ ownName
     ∧ scanLatest ownName c l ∈ l
     ∧ (infrav1.CreationTimestamp c
        ≤ infrav1.CreationTimestamp (scanLatest ownName c l))%Z
     ∧ ∀ z, z ∈ l → infrav1.Name z ≠ ownName →
            (infrav1.CreationTimestamp z
             ≤ infrav1.CreationTimestamp (scanLatest ownName c l))%Z).
Proof.
  unfold scanLatest.
  induction l as [|y l IH]; intros c Hc; simpl.
  - left. split; [done|]. intros z Hz. by apply not_elem_of_nil in Hz.
  - destruct (decide (infrav1.Name y = ownName)) as [Hy|Hy].
    { rewrite keepLatest_keep_own by done.
      destruct (IH c Hc) as [[Heq Hold]|(Hn & Hin & Hle & Hmax)].
      - left. split; [done|].
        intros z [->|Hz]%elem_of_cons Hz'; [done|by apply Hold].
      - right. split_and!; [done|by right|done|].
        intros z [->|Hz]%elem_of_cons Hz'; [done|by apply Hmax]. }
    destruct (decide (infrav1.CreationTimestamp y
                      < infrav1.CreationTimestamp c)%Z) as [Hlt|Hge].
    + rewrite keepLatest_keep_older by done.
      destruct (IH c Hc) as [[Heq Hold]|(Hn & Hin & Hle & Hmax)].
      * left. split; [done|].
        intros z [->|Hz]%elem_of_cons Hz'; [done|by apply Hold].
      * right. split_and!; [done|by right|done|].
        intros z [->|Hz]%elem_of_cons Hz'; [lia|by apply Hmax].
    + rewrite keepLatest_replace by (done || lia).
      pose proof (scanLatest_from_sibling l y Hy) as (Hn & Hin & Hle & Hmax).
      unfold scanLatest in *.
      right. split_and!; [done| |lia|].
      * destruct Hin as [->|Hin]; [by left|by right].
      * intros z [->|Hz]%elem_of_cons Hz'; [done|by apply Hmax].
Qed.
End ScanLatest.

(** X3: a machine [FindLatestMachine] returns is a latest sibling: it is in
    the list the cluster scope answered, it does not carry the name of the
    scope's own record, and no machine of the list with another name than
    the own one has a later creation timestamp.  A machine is returned
    without an error only. *)
Theorem FindLatestMachine_returns_latest_sibling :
  ∀ (m : Machine.t) labels t (x : infrav1.IonosCloudMachine) err,
    runs (FindLatestMachine m labels) t (Some x, err) →
    err = None
    ∧ ∃ machines,
        t = [listed m labels machines None]
        ∧ x ∈ machines
        ∧ infrav1.Name x ≠ infrav1.Name (Machine.IonosMachine m)
        ∧ ∀ z, z ∈ machines →
               infrav1.Name z ≠ infrav1.Name (Machine.IonosMachine m) →
               (infrav1.CreationTimestamp z ≤ infrav1.CreationTimestamp x)%Z.
Proof.
  intros m labels t x err. unfold FindLatestMachine. cbn -[scanLatest].
  intros ([machines e] & t' & -> & H). cbn -[scanLatest] in H.
  destruct e as [e|]; [destruct H as [_ [=]]|].
  destruct machines as [|first [|second rest]]; cbn -[scanLatest] in H;
    try (destruct H as [_ [=]]).
  set (own := infrav1.Name (Machine.IonosMachine m)) in *.
  set (machines := first :: second :: rest) in *.
  destruct (decide _) as [Heq|Hne]; destruct H as [-> Hres]; [done|].
  assert (x = scanLatest own first machines) as -> by congruence.
  assert (err = None) as -> by congruence. clear Hres.
  split; [done|]. exists machines. split; [done|].
  destruct (decide (infrav1.Name first = own)) as [Hfirst|Hfirst].
  - destruct (scanLatest_from_own own machines first Hfirst)
      as [[Hstay _]|(Hn & Hin & _ & Hmax)].
    + rewrite Hstay in Hne. done.
    + done.
  - destruct (scanLatest_from_sibling own machines first Hfirst)
      as (Hn & Hin & _ & Hmax).
    split_and!; [|done|done].
    destruct Hin as [->|Hin]; [by left|done].
Qed.

Lemma FindLatestMachine_returns_latest_sibling_witness :
  runs (FindLatestMachine (sampleScope None (sampleMachine "m1" 3)) ∅)
       [listed (sampleScope None (sampleMachine "m1" 3)) ∅
               [sampleMachine "m2" 1; sampleMachine "m3" 2; sampleMachine "m1" 3]
               None]
       (Some (sampleMachine "m3" 2), None)
  ∧ @None error = None
  ∧ ∃ machines,
      [listed (sampleScope None (sampleMachine "m1" 3)) ∅
              [sampleMachine "m2" 1; sampleMachine "m3" 2; sampleMachine "m1" 3]
              None]
      = [listed (sampleScope None (sampleMachine "m1" 3)) ∅ machines None]
      ∧ sampleMachine "m3" 2 ∈ machines
      ∧ "m3" ≠ "m1"
      ∧ ∀ z, z ∈ machines → infrav1.Name z ≠ "m1" →
             (infrav1.CreationTimestamp z ≤ 2)%Z.
Proof.
  assert (runs (FindLatestMachine (sampleScope None (sampleMachine "m1" 3)) ∅)
            [listed (sampleScope None (sampleMachine "m1" 3)) ∅
                    [sampleMachine "m2" 1; sampleMachine "m3" 2; sampleMachine "m1" 3]
                    None]
            (Some (sampleMachine "m3" 2), None)) as Hrun.
  { apply (FindLatestMachine_scan (sampleScope None (sampleMachine "m1" 3)) ∅
             (sampleMachine "m2" 1) (sampleMachine "m3" 2) [sampleMachine "m1" 3]). }
  split; [exact Hrun|].
  exact (FindLatestMachine_returns_latest_sibling _ _ _ _ _ Hrun).
Defined.

(** X4: on a list of two or more machines, answered without error,
    [FindLatestMachine] returns nil exactly when the first machine of the
    list carries the name of the scope's own record and every machine with
    another name is strictly older than that first machine.  So siblings
    that are older than the own record are found when the own record is
    not listed first, and missed when it is. *)
Theorem FindLatestMachine_nil_iff :
  ∀ (m : Machine.t) labels (first second : infrav1.IonosCloudMachine) rest r,
    runs (FindLatestMachine m labels)
         [listed m labels (first :: second :: rest) None] r →
    r = (None, None) ↔
    (infrav1.Name first = infrav1.Name (Machine.IonosMachine m)
     ∧ ∀ z, z ∈ first :: second :: rest →
            infrav1.Name z ≠ infrav1.Name (Machine.IonosMachine m) →
            (infrav1.CreationTimestamp z < infrav1.CreationTimestamp first)%Z).
Proof.
  intros m labels first second rest r Hrun.
  pose proof (FindLatestMachine_scan m labels first second rest) as Hscan.
  cbv zeta in Hscan.
  pose proof (runs_det _ _ _ _ Hrun Hscan) as ->. clear Hrun Hscan.
  set (own := infrav1.Name (Machine.IonosMachine m)) in *.
  set (machines := first :: second :: rest) in *.
  destruct (decide (infrav1.Name first = own)) as [Hfirst|Hfirst].
  - destruct (scanLatest_from_own own machines first Hfirst)
      as [[Hstay Hold]|(Hn & Hin & Hle & Hmax)].
    + rewrite Hstay, decide_True by done. done.
    + rewrite decide_False by done. split; [done|].
      intros [_ Hold]. specialize (Hold _ Hin Hn). lia.
  - destruct (scanLatest_from_sibling own machines first Hfirst) as (Hn & _).
    rewrite decide_False by done. split; [done|]. intros [? _]. done.
Qed.

Lemma FindLatestMachine_nil_iff_witness :
  runs (FindLatestMachine (sampleScope None (sampleMachine "m1" 3)) ∅)
       [listed (sampleScope None (sampleMachine "m1" 3)) ∅
               [sampleMachine "m1" 3; sampleMachine "m2" 1; sampleMachine "m3" 2]
               None]
       (None, None)
  ∧ ((@None infrav1.IonosCloudMachine, @None error) = (None, None) ↔
     ("m1" = "m1"
      ∧ ∀ z, z ∈ [sampleMachine "m1" 3; sampleMachine "m2" 1; sampleMachine "m3" 2] →
             infrav1.Name z ≠ "m1" → (infrav1.CreationTimestamp z < 3)%Z)).
Proof.
  assert (runs (FindLatestMachine (sampleScope None (sampleMachine "m1" 3)) ∅)
            [listed (sampleScope None (sampleMachine "m1" 3)) ∅
                    [sampleMachine "m1" 3; sampleMachine "m2" 1; sampleMachine "m3" 2]
                    None]
            (None, None)) as Hrun.
  { apply (FindLatestMachine_scan (sampleScope None (sampleMachine "m1" 3)) ∅
             (sampleMachine "m1" 3) (sampleMachine "m2" 1) [sampleMachine "m3" 2]). }
  split; [exact Hrun|].
  exact (FindLatestMachine_nil_iff _ _ _ _ _ _ Hrun).
Defined.

(** ** Counting and selecting siblings *)

(** X5: [CountMachines] and [FindLatestMachine] ask the cluster scope the
    same question.  On the answer on which [CountMachines] reports [n]
    machines and the error [e], [FindLatestMachine] passes an error on as
    it is, returns nil without error when [n] is at most one, whatever the
    one machine is, and returns a machine only when there was no error and
    [n] is at least two.  [CountMachines] keeps the count of the machines
    that came with an error. *)
Theorem FindLatestMachine_against_count :
  ∀ (m : Machine.t) labels t (n : nat) (e : option error),
    runs (CountMachines m labels) t (n, e) →
    ∃ machines r,
      t = [listed m labels machines e]
      ∧ n = length machines
      ∧ runs (FindLatestMachine m labels) t r
      ∧ (∀ err, e = Some err → r = (None, Some err))
      ∧ (e = None → n ≤ 1 → r = (None, None))
      ∧ (∀ x, r.1 = Some x → e = None ∧ 2 ≤ n).
Proof.
  intros m labels t n e. unfold CountMachines, ListMachines. simpl.
  intros ([machines e'] & t' & -> & [-> [= -> ->]]). simpl.
  exists machines.
  destruct e' as [err|].
  { exists (None, Some err). split_and!; try done.
    - unfold FindLatestMachine. simpl. eexists _, _. split; [reflexivity|]. done.
    - by intros err' [= ->]. }
  destruct machines as [|first [|second rest]].
  - exists (None, None). split_and!; try done.
    unfold FindLatestMachine. simpl. eexists _, _. split; [reflexivity|]. done.
  - exists (None, None). split_and!; try done.
    unfold FindLatestMachine. simpl. eexists _, _. split; [reflexivity|]. done.
  - eexists. split_and!; [done|done|apply FindLatestMachine_scan|done| |].
    + simpl. lia.
    + intros x _. split; [done|]. simpl. lia.
Qed.

Lemma FindLatestMachine_against_count_witness :
  runs (CountMachines (sampleScope None (sampleMachine "m1" 0)) ∅)
       [listed (sampleScope None (sampleMachine "m1" 0)) ∅
               [sampleMachine "m2" 1] (Some (errors_New "context deadline exceeded"))]
       (1, Some (errors_New "context deadline exceeded"))
  ∧ ∃ machines r,
      [listed (sampleScope None (sampleMachine "m1" 0)) ∅
              [sampleMachine "m2" 1] (Some (errors_New "context deadline exceeded"))]
      = [listed (sampleScope None (sampleMachine "m1" 0)) ∅ machines
                (Some (errors_New "context deadline exceeded"))]
      ∧ 1 = length machines
      ∧ runs (FindLatestMachine (sampleScope None (sampleMachine "m1" 0)) ∅)
             [listed (sampleScope None (sampleMachine "m1" 0)) ∅
                     [sampleMachine "m2" 1]
                     (Some (errors_New "context deadline exceeded"))] r
      ∧ (∀ err, Some (errors_New "context deadline exceeded") = Some err →
                r = (None, Some err))
      ∧ (Some (errors_New "context deadline exceeded") = None → 1 ≤ 1 →
         r = (None, None))
      ∧ (∀ x, r.1 = Some x →
              Some (errors_New "context deadline exceeded") = None ∧ 2 ≤ 1).
Proof.
  assert (runs (CountMachines (sampleScope None (sampleMachine "m1" 0)) ∅)
            [listed (sampleScope None (sampleMachine "m1" 0)) ∅
                    [sampleMachine "m2" 1]
                    (Some (errors_New "context deadline exceeded"))]
            (1, Some (errors_New "context deadline exceeded"))) as Hrun.
  { simpl. eexists _, _. split; [reflexivity|]. done. }
  split; [exact Hrun|].
  exact (FindLatestMachine_against_count _ _ _ _ _ Hrun).
Defined.

(** ** The order of the checks of [NewMachine] *)

(** X6: [NewMachine] checks its params in the order client, Cluster API
    machine, IONOS Cloud machine, cluster scope, and reports the first one
    that is nil, also when several are nil; the result then holds no
    scope. *)
Theorem NewMachine_first_missing_param :
  ∀ (params : MachineParams.t) t r,
    runs (NewMachine params) t r →
    match MachineParams.Client params, MachineParams.Machine params,
          MachineParams.IonosMachine params, MachineParams.ClusterScope params with
    | None, _, _, _ =>
        r = (None, Some (errors_New "machine scope params lack a client"))
    | Some _, None, _, _ =>
        r = (None, Some (errors_New "machine scope params lack a Cluster API machine"))
    | Some _, Some _, None, _ =>
        r = (None, Some (errors_New "machine scope params lack a IONOS Cloud machine"))
    | Some _, Some _, Some _, None =>
        r = (None,
             Some (errors_New "machine scope params need a IONOS Cloud cluster scope"))
    | Some _, Some _, Some _, Some _ => is_Some r.1 ↔ r.2 = None
    end.
Proof.
  intros [c machine clusterScope ionosMachine] t r. unfold NewMachine. simpl.
  destruct c, machine, ionosMachine, clusterScope; simpl;
    try (by intros [_ ->]).
  intros ([helper|err] & t' & -> & [_ ->]); simpl.
  - split; [done|]. intros _. by eexists.
  - split; [by intros [? [=]]|done].
Qed.

Lemma NewMachine_first_missing_param_witness :
  runs (NewMachine {| MachineParams.Client := None;
                      MachineParams.Machine := None;
                      MachineParams.ClusterScope := None;
                      MachineParams.IonosMachine := None |})
       []
       (None, Some (errors_New "machine scope params lack a client"))
  ∧ (@None Machine.t, Some (errors_New "machine scope params lack a client"))
    = (None, Some (errors_New "machine scope params lack a client")).
Proof.
  assert (runs (NewMachine {| MachineParams.Client := None;
                              MachineParams.Machine := None;
                              MachineParams.ClusterScope := None;
                              MachineParams.IonosMachine := None |})
            []
            (None, Some (errors_New "machine scope params lack a client")))
    as Hrun.
  { simpl. done. }
  split; [exact Hrun|].
  exact (NewMachine_first_missing_param _ _ _ Hrun).
Defined.

(** ** The attempts of [Finalize] *)

Lemma schedule_length n d factor : length (schedule n d factor) = n.
Proof. revert d. induction n as [|n IH]; intros d; simpl; [done|]. by rewrite IH. Qed.

Lemma PatchObject_once m t r :
  runs (PatchObject m) t r → commits t = [r.1] ∧ sleeps t = [].
Proof. by intros (o & err & -> & ->)%PatchObject_runs_inv. Qed.

(** The loop over [PatchObject] makes a chain of attempts. *)
Lemma loop_chain steps :
  ∀ delay factor lastErr m t r,
    0 < steps →
    runs (retry.loop steps delay factor (λ _, true) PatchObject lastErr m) t r →
    chain m t r.2.
Proof.
  induction steps as [|n IH]; intros delay factor lastErr m t r Hpos Hrun; [lia|].
  rewrite loop_unfold in Hrun.
  apply runs_bind in Hrun as (t1 & t2 & [err m1] & -> & Hfn & Hrest).
  apply PatchObject_runs_inv in Hfn as (o & err' & -> & [= -> ->]).
  fold (attempt m o err').
  destruct err' as [e|].
  - destruct n as [|n'].
    + simpl in Hrest. destruct Hrest as [-> ->]. rewrite app_nil_r. constructor.
    + apply runs_bind in Hrest as (t3 & t4 & [] & -> & Hsleep & Hloop).
      simpl in Hsleep. destruct Hsleep as ([] & t5 & -> & -> & _).
      apply IH in Hloop; [|lia]. simpl. by apply chain_retry.
  - simpl in Hrest. destruct Hrest as [-> ->]. rewrite app_nil_r. constructor.
Qed.

Lemma chain_facts m t m' :
  chain m t m' →
  (∃ o, m' = Machine.setIonosMachine m o)
  ∧ Forall commitCall t
  ∧ length t = 2 * length (commits t) + length (sleeps t)
  ∧ length (summaries t) = length (commits t).
Proof.
  induction 1 as [m o err|m o e d rest m' Hchain (Hm & Hcalls & Hlen & Hsum)].
  - split_and!; [by exists o| |done|done].
    repeat constructor.
  - split_and!.
    + destruct Hm as [o' ->]. by exists o'.
    + simpl. repeat (constructor; [done|]). done.
    + simpl in *. rewrite Hlen. lia.
    + simpl in *. by rewrite Hsum.
Qed.

(** X7: a run of [Finalize] under a policy with at least one step is a
    chain of commit attempts: each attempt recomputes the summary and then
    patches the record the summary produced, with the patch helper the
    scope was built with, under the deadline of ten seconds; only a failed
    attempt is followed by a pause and another attempt; each attempt starts
    from the record the attempt before left, and the scope returned is the
    one the last attempt left.  Under a policy without a step nothing is
    called and no error is returned. *)
Theorem Finalize_chain_of_attempts :
  ∀ (DefaultBackoff : wait.Backoff) (m : Machine.t) t r,
    runs (Finalize DefaultBackoff m) t r →
    (wait.Steps DefaultBackoff = 0 ∧ t = [] ∧ r = (None, m))
    ∨ (0 < wait.Steps DefaultBackoff ∧ chain m t r.2).
Proof.
  intros b m t r Hrun. unfold Finalize, retry.OnError in Hrun.
  destruct (wait.Steps b) as [|n] eqn:Hsteps.
  - left. simpl in Hrun. by destruct Hrun as [-> ->].
  - right. split; [lia|]. by eapply loop_chain; [|exact Hrun]; lia.
Qed.

Lemma Finalize_chain_of_attempts_witness :
  runs (Finalize sampleBackoff
          (sampleScope None (sampleProvisioned "m1" clusterv1.ConditionFalse)))
       (sampleFinalizeTrace
          (sampleScope None (sampleProvisioned "m1" clusterv1.ConditionFalse)))
       (None,
        committed (committed (committed
          (sampleScope None (sampleProvisioned "m1" clusterv1.ConditionFalse)))))
  ∧ ((4 = 0
      ∧ sampleFinalizeTrace
          (sampleScope None (sampleProvisioned "m1" clusterv1.ConditionFalse)) = []
      ∧ (@None error,
         committed (committed (committed
           (sampleScope None (sampleProvisioned "m1" clusterv1.ConditionFalse)))))
        = (None, sampleScope None (sampleProvisioned "m1" clusterv1.ConditionFalse)))
     ∨ (0 < 4
        ∧ chain (sampleScope None (sampleProvisioned "m1" clusterv1.ConditionFalse))
                (sampleFinalizeTrace
                   (sampleScope None (sampleProvisioned "m1" clusterv1.ConditionFalse)))
                (committed (committed (committed
                   (sampleScope None
                      (sampleProvisioned "m1" clusterv1.ConditionFalse))))))).
Proof.
  assert (runs (Finalize sampleBackoff
                  (sampleScope None (sampleProvisioned "m1" clusterv1.ConditionFalse)))
            (sampleFinalizeTrace
               (sampleScope None (sampleProvisioned "m1" clusterv1.ConditionFalse)))
            (None,
             committed (committed (committed
               (sampleScope None (sampleProvisioned "m1" clusterv1.ConditionFalse))))))
    as Hrun.
  { exact (exec_runs (store.env conditions.SetSummary)
             (Finalize sampleBackoff
                (sampleScope None (sampleProvisioned "m1" clusterv1.ConditionFalse)))
             {| store.stored := sampleMachine "m1" 0;
                store.faults := [Some sampleConflict; Some sampleConflict] |}). }
  split; [exact Hrun|].
  exact (Finalize_chain_of_attempts _ _ _ _ Hrun).
Defined.

(** X8: [Finalize] touches nothing but the record.  The scope it returns
    has the client, the patch helper (and so the snapshot), the Cluster API
    machine and the cluster scope of the scope it was called on.  Its run
    holds only summaries, patches and pauses: no lookup, no sibling query,
    no new snapshot.  It makes as many summaries as patches, at most as
    many patches as the policy has steps, and at most three calls per
    step. *)
Theorem Finalize_frame_and_bound :
  ∀ (DefaultBackoff : wait.Backoff) (m : Machine.t) t r,
    runs (Finalize DefaultBackoff m) t r →
    Machine.client r.2 = Machine.client m
    ∧ Machine.patchHelper r.2 = Machine.patchHelper m
    ∧ Machine.Machine r.2 = Machine.Machine m
    ∧ Machine.ClusterScope r.2 = Machine.ClusterScope m
    ∧ Forall commitCall t
    ∧ length (summaries t) = length (commits t)
    ∧ length (commits t) ≤ wait.Steps DefaultBackoff
    ∧ length t ≤ 3 * wait.Steps DefaultBackoff.
Proof.
  intros b m t r Hrun.
  assert (length (commits t) ≤ wait.Steps b
          ∧ length (sleeps t) ≤ wait.Steps b) as [Hc Hs].
  { unfold Finalize, retry.OnError in Hrun.
    apply loop_always_retry in Hrun
        as (errs & [(-> & Hlen & _ & ->)|(-> & Hlen & _ & ->)]);
      [| |apply PatchObject_once].
    - rewrite length_app, length_fmap, schedule_length. simpl. lia.
    - rewrite length_fmap, schedule_length. lia. }
  unfold Finalize, retry.OnError in Hrun.
  destruct (wait.Steps b) as [|n] eqn:Hsteps.
  - simpl in Hrun. destruct Hrun as [-> ->]. simpl. split_and!; try done; lia.
  - apply loop_chain in Hrun; [|lia].
    apply chain_facts in Hrun as ([o ->] & Hcalls & Hlen & Hsum).
    split_and!; try done. lia.
Qed.

Lemma Finalize_frame_and_bound_witness :
  runs (Finalize sampleBackoff
          (sampleScope None (sampleProvisioned "m1" clusterv1.ConditionFalse)))
       (sampleFinalizeTrace
          (sampleScope None (sampleProvisioned "m1" clusterv1.ConditionFalse)))
       (None,
        committed (committed (committed
          (sampleScope None (sampleProvisioned "m1" clusterv1.ConditionFalse)))))
  ∧ length (commits
              (sampleFinalizeTrace
                 (sampleScope None (sampleProvisioned "m1" clusterv1.ConditionFalse))))
    ≤ 4
  ∧ length (sampleFinalizeTrace
              (sampleScope None (sampleProvisioned "m1" clusterv1.ConditionFalse)))
    ≤ 3 * 4.
Proof.
  assert (runs (Finalize sampleBackoff
                  (sampleScope None (sampleProvisioned "m1" clusterv1.ConditionFalse)))
            (sampleFinalizeTrace
               (sampleScope None (sampleProvisioned "m1" clusterv1.ConditionFalse)))
            (None,
             committed (committed (committed
               (sampleScope None (sampleProvisioned "m1" clusterv1.ConditionFalse))))))
    as Hrun.
  { exact (exec_runs (store.env conditions.SetSummary)
             (Finalize sampleBackoff
                (sampleScope None (sampleProvisioned "m1" clusterv1.ConditionFalse)))
             {| store.stored := sampleMachine "m1" 0;
                store.faults := [Some sampleConflict; Some sampleConflict] |}). }
  split; [exact Hrun|].
  exact (proj2 (proj2 (proj2 (proj2 (proj2 (proj2
           (Finalize_frame_and_bound _ _ _ _ Hrun))))))).
Defined.
